(** * TransactionManager: the wallet's account / transaction synchronisation core

    A shallow embedding of [TransactionManager] (the class that keeps one
    [AccountStateManager] per tracked account, merges pushed and fetched
    transactions into it, walks the paginated history and notifies the UI),
    followed by the properties the specification states about it.

    JavaScript objects used as dictionaries are finite maps, mutation of
    [this] is explicit state passing over the record [TransactionManager],
    a thrown exception is the outcome [Thrown], and what the class sends to
    the window is appended to the field [sent]. *)

From Stdlib Require Import ZArith List String Bool Lia.
From stdpp Require Import base option list gmap strings.
Import ListNotations.

Local Open Scope Z_scope.

(** ** JavaScript values *)

Abbreviation HexString := string.
Abbreviation Bech32Address := string.

(** A value of a numeric property as the code can read it: the property is
    absent or [undefined], it is [null], or it is a number. *)
Inductive jsnum : Type :=
| JUndefined
| JNull
| JNum (n : Z).

(** [ToNumber]: [undefined] is NaN ([None]), [null] is 0. *)
Definition toNumber (v : jsnum) : option Z :=
  match v with
  | JUndefined => None
  | JNull => Some 0
  | JNum n => Some n
  end.

(** The operator [a > b]: false as soon as one side is NaN. *)
Definition js_gt (a b : jsnum) : bool :=
  match toNumber a, toNumber b with
  | Some x, Some y => y <? x
  | _, _ => false
  end.

(** The values of the properties the manager copies without reading them. *)
#[warnings="-register-all"]
Inductive value : Type :=
| VUndefined
| VNull
| VNum (n : Z)
| VStr (s : string)
| VObj (o : list (string * value)).

(** ** Transaction records ([Tx] of shared/types)

    [id], [status] and [receipt] are the properties the manager reads;
    [fields] holds the other own properties of the object (template, method,
    principal, gas, payload, meta, layer, note), a property set to
    [undefined] being the key bound to [VUndefined]. For [id] and [receipt],
    [None] is the absent (or [undefined]) property. *)
Record Tx : Type := mkTx {
  id : option HexString;
  status : jsnum;
  receipt : option (gmap string value);
  fields : gmap string value
}.

(** [{ ...o }] for an object that may be [undefined]. *)
Definition spread (o : option (gmap string value)) : gmap string value :=
  default ∅ o.

(** [originalTx?.status] *)
Definition status_opt (originalTx : option Tx) : jsnum :=
  from_option status JUndefined originalTx.

(** [originalTx?.receipt] *)
Definition receipt_opt (originalTx : option Tx) : option (gmap string value) :=
  originalTx ≫= receipt.

(** ** Rewards and account snapshots *)

Record Reward : Type := mkReward {
  layer : Z;
  amount : Z;
  layerReward : Z;
  coinbase : Bech32Address
}.

Record StateSnapshot : Type := mkSnapshot {
  counter : Z;
  balance : Z
}.

Record AccountBalance : Type := mkBalance {
  currentState : StateSnapshot;
  projectedState : StateSnapshot
}.

(** ** The per-account store ([AccountStateManager]) *)

(** Modelled from the spec: the class [AccountStateManager] (./AccountState)
    is not among the sources. Section 4.1 of the specification gives its
    contract: [storeState] replaces the snapshot, [getTxById] returns the
    stored record or none, [storeTransaction] is insert-or-update,
    [storeReward] appends, [getTxs] and [getRewards] are read views. The
    manager reads [Object.keys] of [getTxs()] as the transaction ids, so the
    ledger is an object keyed by id. *)
Record AccountState : Type := mkAccountState {
  state : option AccountBalance;
  txs : gmap string Tx;
  rewards : list Reward
}.

(** The property key an id is used as: [txs[undefined]] is [txs["undefined"]]. *)
Definition txKey (i : option HexString) : string :=
  default "undefined"%string i.

Module AccountStateManager.

Definition getState (a : AccountState) : option AccountBalance := state a.
Definition getTxs (a : AccountState) : gmap string Tx := txs a.
Definition getRewards (a : AccountState) : list Reward := rewards a.

Definition getTxById (i : option HexString) (a : AccountState) : option Tx :=
  txs a !! txKey i.

Definition storeTransaction (tx : Tx) (a : AccountState) : AccountState :=
  {| state := state a; txs := <[txKey (id tx) := tx]> (txs a); rewards := rewards a |}.

Definition storeReward (r : Reward) (a : AccountState) : AccountState :=
  {| state := state a; txs := txs a; rewards := rewards a ++ [r] |}.

Definition storeState (s : AccountBalance) (a : AccountState) : AccountState :=
  {| state := Some s; txs := txs a; rewards := rewards a |}.

End AccountStateManager.

(** ** What the module imports from files that are not among the sources *)

(** What [TransactionManager] receives from the remote services. *)

(** [Account__Output]: [stateCurrent] and [stateProjected], each optional,
    with an optional balance. *)
Record AccountState__Output : Type := mkStateOut {
  out_counter : Z;
  out_balance : option Z
}.

Record Account__Output : Type := mkAccountOut {
  stateCurrent : option AccountState__Output;
  stateProjected : option AccountState__Output
}.

(** [Reward__Output]: every member may be missing on the wire. *)
Record Reward__Output : Type := mkRewardOut {
  rw_layer : option Z;
  rw_total : option Z;
  rw_layerReward : option Z;
  rw_coinbase : option Bech32Address
}.

Inductive Error : Type :=
| TypeError
| TxResponseError            (* new Error('Can not retrieve a transaction data') *)
| ServiceError (msg : string).

(** The answer of [submitTransaction]: [error] is [null] or an error,
    [txstate] is [null] or carries an optional [id] whose [id] member holds
    the bytes (the chain [response.txstate.id?.id] reads both levels). *)
Record TransactionId__Output : Type := mkTxId {
  id_bytes : option (list Z)
}.

Record TransactionState__Output : Type := mkTxStateOut {
  ts_id : option TransactionId__Output;
  ts_state : Z
}.

Record SubmitResponse : Type := mkSubmit {
  submit_error : option Error;
  txstate : option TransactionState__Output
}.

(** One entry of a page of [requestMeshTransactions], and the page itself:
    [{ data, totalResults, error }]. *)
Record AccountMeshData (A : Type) : Type := mkMeshData {
  meshTransaction : A
}.
Arguments mkMeshData {A} _.
Arguments meshTransaction {A} _.

Record MeshReply (A : Type) : Type := mkMeshReply {
  data : list (AccountMeshData A);
  totalResults : Z;
  error : option Error
}.
Arguments mkMeshReply {A} _ _ _.
Arguments data {A} _.
Arguments totalResults {A} _.
Arguments error {A} _.

(** The answer of [sendAccountDataQuery] for the account flag. *)
Record AccountDataReply : Type := mkAccountDataReply {
  ad_data : list Account__Output;
  ad_error : option Error
}.

(** Constants, converters and constructors declared in shared/types,
    shared/constants, ./transformers, ./AccountState and the codec packages.
    The manager's code is embedded over any choice of them. *)
Class Imports : Type := {
  (** [TxState.PROCESSED] *)
  PROCESSED : Z;
  (** [GRPC_QUERY_BATCH_SIZE] *)
  GRPC_QUERY_BATCH_SIZE : Z;
  (** [MAX_GAS] *)
  MAX_GAS : Z;
  (** [Bech32.generateAddress(tpl.principal({ PublicKey }))] for the
      single-signature template fetched with the given method index *)
  principalAddress : Z -> HexString -> Bech32Address;
  (** [new AccountStateManager(address, genesisID)]: the store as loaded *)
  newAccountStateManager : Bech32Address -> AccountState;
  (** [toTxState(state)] and [toTxState(TxState.PROCESSED, status)] *)
  toTxState : Z -> option Z -> jsnum;
  (** [toHexString] *)
  toHexString : list Z -> HexString;
  (** [Bech32.parse], which throws on a malformed address, and
      [Bech32.generateAddress] *)
  Bech32_parse : Bech32Address -> option (list Z);
  Bech32_generateAddress : list Z -> Bech32Address;
  (** [Bech32.generateAddress(SingleSigTemplate.publicKey)] *)
  templateAddress : Bech32Address;
  (** [getTemplateName], [getMethodName] for that template *)
  templateName : string;
  methodName : Z -> string;
  (** the wire transaction [Transaction__Output] and [toTx] of ./transformers *)
  Transaction__Output : Type;
  toTx : Transaction__Output -> jsnum -> option Tx;
  (** whether [transaction.id] is set *)
  tx_id_present : Transaction__Output -> bool
}.

(** What the transaction feeds hand to their callbacks. *)
Record LayerNumber : Type := mkLayer { number : Z }.

Record MeshTransaction__Output `{Imports} : Type := mkMeshTx {
  mesh_transaction : option Transaction__Output;
  layerId : option LayerNumber
}.

Record TxStatePush `{Imports} : Type := mkTxStatePush {
  transaction : option Transaction__Output;
  transactionState : option TransactionState__Output
}.

Record TxResult `{Imports} : Type := mkTxResult {
  res_tx : option Transaction__Output;
  res_status : option Z;
  res_layer : option Z
}.

(** ** The manager's state *)

Record KeyPair : Type := mkKeyPair {
  publicKey : HexString;
  secretKey : HexString
}.

(** The live feeds [subscribeAccount] registers a cancel function for. *)
Inductive Stream : Type :=
| MeshTransactions
| AccountDataStream
| TransactionsByAddress
| RewardsByCoinbase.

(** What [appStateUpdater] sends to the window. *)
Inductive ipc : Type :=
| T_M_UPDATE_ACCOUNT (account : AccountBalance) (accountId : Bech32Address)
| T_M_UPDATE_TXS (txs : gmap string Tx) (publicKey : Bech32Address)
| T_M_UPDATE_REWARDS (rewards : list Reward) (publicKey : Bech32Address).

(** The address a notification is about. *)
Definition ipc_account (n : ipc) : Bech32Address :=
  match n with
  | T_M_UPDATE_ACCOUNT _ a => a
  | T_M_UPDATE_TXS _ a => a
  | T_M_UPDATE_REWARDS _ a => a
  end.

(** The fields of the class. [txStateStream] keeps, per account, the ids the
    transaction-state stream was opened with. [debounced] is the one pending
    call of the debounced [subscribeTransactions] (the wrapper is shared by
    all accounts and keeps the arguments of the latest call). [sent] is what
    went through [mainWindow.webContents.send]; [logged] what went to
    [logger.error]. *)
Record TransactionManager : Type := mkManager {
  keychain : list KeyPair;
  accountStates : gmap Bech32Address AccountState;
  unsubs : gmap Bech32Address (list Stream);
  txStateStream : gmap Bech32Address (gset HexString);
  debounced : option Bech32Address;
  sent : list ipc;
  logged : list Error
}.

Definition set_keychain (k : list KeyPair) (m : TransactionManager) : TransactionManager :=
  mkManager k (accountStates m) (unsubs m) (txStateStream m) (debounced m) (sent m) (logged m).

Definition set_accountStates (s : gmap Bech32Address AccountState) (m : TransactionManager)
  : TransactionManager :=
  mkManager (keychain m) s (unsubs m) (txStateStream m) (debounced m) (sent m) (logged m).

Definition set_unsubs (u : gmap Bech32Address (list Stream)) (m : TransactionManager)
  : TransactionManager :=
  mkManager (keychain m) (accountStates m) u (txStateStream m) (debounced m) (sent m) (logged m).

Definition set_txStateStream (t : gmap Bech32Address (gset HexString)) (m : TransactionManager)
  : TransactionManager :=
  mkManager (keychain m) (accountStates m) (unsubs m) t (debounced m) (sent m) (logged m).

Definition set_debounced (d : option Bech32Address) (m : TransactionManager) : TransactionManager :=
  mkManager (keychain m) (accountStates m) (unsubs m) (txStateStream m) d (sent m) (logged m).

Definition set_sent (s : list ipc) (m : TransactionManager) : TransactionManager :=
  mkManager (keychain m) (accountStates m) (unsubs m) (txStateStream m) (debounced m) s (logged m).

Definition set_logged (l : list Error) (m : TransactionManager) : TransactionManager :=
  mkManager (keychain m) (accountStates m) (unsubs m) (txStateStream m) (debounced m) (sent m) l.

(** ** Methods as state transformers that may throw *)

Inductive outcome (A : Type) : Type :=
| Returned (a : A)
| Thrown (e : Error).
Arguments Returned {A} a.
Arguments Thrown {A} e.

(** A method body: it runs on the manager, leaves it changed, and returns or
    throws. What it changed before throwing stays changed. *)
Definition M (A : Type) : Type := TransactionManager -> outcome A * TransactionManager.

Definition throw {A} (e : Error) : M A := fun m => (Thrown e, m).

#[global] Instance M_ret : MRet M := fun A a m => (Returned a, m).

#[global] Instance M_bind : MBind M := fun A B k c m =>
  match c m with
  | (Returned a, m') => k a m'
  | (Thrown e, m') => (Thrown e, m')
  end.

(** [try { c } catch (err) { h err }], and [promise.catch(h)] *)
Definition try_catch {A} (c : M A) (h : Error -> M A) : M A :=
  fun m =>
    match c m with
    | (Returned a, m') => (Returned a, m')
    | (Thrown e, m') => h e m'
    end.

Definition modify (f : TransactionManager -> TransactionManager) : M unit :=
  fun m => (Returned tt, f m).

Definition exec {A} (c : M A) (m : TransactionManager) : TransactionManager := snd (c m).
Definition result {A} (c : M A) (m : TransactionManager) : outcome A := fst (c m).

(** [this.accountStates[address].f(...)]: reading a member of [undefined]
    throws a [TypeError]. *)
Definition theAccount (address : Bech32Address) : M AccountState :=
  fun m =>
    match accountStates m !! address with
    | Some a => (Returned a, m)
    | None => (Thrown TypeError, m)
    end.

(** [if (!this.accountStates[address])] *)
Definition hasAccount (address : Bech32Address) : M bool :=
  fun m => (Returned (bool_decide (is_Some (accountStates m !! address))), m).

Definition putAccount (address : Bech32Address) (a : AccountState) : M unit :=
  modify (fun m => set_accountStates (<[address := a]> (accountStates m)) m).

(** [appStateUpdater(channel, payload)] *)
Definition appStateUpdater (n : ipc) : M unit :=
  modify (fun m => set_sent (sent m ++ [n]) m).

(** [logger.error(...)] *)
Definition logError (e : Error) : M unit :=
  modify (fun m => set_logged (logged m ++ [e]) m).

(** ** The methods of [TransactionManager] *)

Section Methods.
Context `{Imports}.

(** The cancel functions are called (that is the services' business) and the
    table is emptied. *)
Definition unsubscribeAllStreams : M unit :=
  modify (set_unsubs ∅).

Definition updateAppStateAccount (address : Bech32Address) : M unit :=
  a ← theAccount address;
  match AccountStateManager.getState a with
  | None => mret tt
  | Some account => appStateUpdater (T_M_UPDATE_ACCOUNT account address)
  end.

Definition updateAppStateTxs (publicKey : Bech32Address) : M unit :=
  a ← theAccount publicKey;
  appStateUpdater (T_M_UPDATE_TXS (AccountStateManager.getTxs a) publicKey).

Definition updateAppStateRewards (publicKey : Bech32Address) : M unit :=
  a ← theAccount publicKey;
  appStateUpdater (T_M_UPDATE_REWARDS (AccountStateManager.getRewards a) publicKey).

(** [storeTx], in the two steps it takes: the call
    [this.accountStates[publicKey].storeTransaction(tx)], and what runs when
    the promise it returned settles ([.then] notifying the window, [.catch]
    logging what [.then] threw). The promise is taken to resolve. *)
Definition storeTx_call (publicKey : Bech32Address) (tx : Tx) : M unit :=
  a ← theAccount publicKey;
  putAccount publicKey (AccountStateManager.storeTransaction tx a).

Definition storeTx_settled (publicKey : Bech32Address) : M unit :=
  try_catch (updateAppStateTxs publicKey) logError.

Definition storeTx (publicKey : Bech32Address) (tx : Tx) : M unit :=
  storeTx_call publicKey tx;; storeTx_settled publicKey.

(** [storeReward], likewise. *)
Definition storeReward_call (publicKey : Bech32Address) (reward : Reward) : M unit :=
  a ← theAccount publicKey;
  putAccount publicKey (AccountStateManager.storeReward reward a).

Definition storeReward_settled (publicKey : Bech32Address) : M unit :=
  try_catch (updateAppStateRewards publicKey) logError.

Definition storeReward (publicKey : Bech32Address) (reward : Reward) : M unit :=
  storeReward_call publicKey reward;; storeReward_settled publicKey.

(** [subscribeTransactions] is [debounce(100, body)]: a call only records its
    argument as the pending one; the body runs when the timer fires. *)
Definition subscribeTransactions (publicKey : Bech32Address) : M unit :=
  modify (set_debounced (Some publicKey)).

Definition subscribeTransactions_body (publicKey : Bech32Address) : M unit :=
  a ← theAccount publicKey;
  let txIds := dom (AccountStateManager.getTxs a) in
  modify (fun m => set_txStateStream (<[publicKey := txIds]> (txStateStream m)) m).

(** The record [upsertTransaction] stores, from the stored record (if any)
    and the incoming one: [receipt], [status] and
    [{ ...originalTx, ...tx, status, receipt }]. *)
Definition mergeTx (originalTx : option Tx) (tx : Tx) : Tx :=
  let receipt' :=
    match receipt tx with
    | Some r => Some (r ∪ spread (receipt_opt originalTx))
    | None => receipt_opt originalTx
    end in
  let status' :=
    if js_gt (status_opt originalTx) (JNum PROCESSED)
       && js_gt (status_opt originalTx) (status tx)
    then status_opt originalTx
    else status tx in
  {| id := match id tx with Some i => Some i | None => originalTx ≫= id end;
     status := status';
     receipt := receipt';
     fields := fields tx ∪ from_option fields ∅ originalTx |}.

(** [upsertTransaction] up to the call inside [storeTx]; it answers whether
    it got past the guard. *)
Definition upsertTransaction_begin (accountAddress : Bech32Address) (tx : Tx) : M bool :=
  present ← hasAccount accountAddress;
  if negb present then mret false
  else
    a ← theAccount accountAddress;
    let originalTx := AccountStateManager.getTxById (id tx) a in
    let updatedTx := mergeTx originalTx tx in
    storeTx_call accountAddress updatedTx;;
    mret true.

(** ... and from the moment the stored promise settles. *)
Definition upsertTransaction_resume (accountAddress : Bech32Address) : M unit :=
  storeTx_settled accountAddress;;
  subscribeTransactions accountAddress.

Definition upsertTransaction (accountAddress : Bech32Address) (tx : Tx) : M unit :=
  started ← upsertTransaction_begin accountAddress tx;
  if (started : bool) then upsertTransaction_resume accountAddress else mret tt.

Definition handleNewTx (publicKey : Bech32Address) (tx : TxStatePush) : M unit :=
  match transaction tx, transactionState tx with
  | Some t, Some ts =>
      if ts_state ts =? 0 then mret tt
      else
        match toTx t (toTxState (ts_state ts) None) with
        | None => mret tt
        | Some newTx => upsertTransaction publicKey newTx
        end
  | _, _ => mret tt
  end.

Definition upsertTransactionFromMesh (accountAddress : Bech32Address)
    (tx : option MeshTransaction__Output) : M unit :=
  match tx with
  | None => mret tt
  | Some mtx =>
      match mesh_transaction mtx, layerId mtx with
      | Some t, Some l =>
          if negb (tx_id_present t) then mret tt
          else
            match toTx t JNull with
            | None => mret tt
            | Some newTxData =>
                upsertTransaction accountAddress
                  (if number l =? 0 then newTxData
                   else mkTx (id newTxData) (status newTxData) (receipt newTxData)
                          (<["layer"%string := VNum (number l)]> (fields newTxData)))
            end
      | _, _ => mret tt
      end
  end.

(** The callback [subscribeAccount] gives to [watchTransactionsByAddress]. *)
Definition watchTransactionsByAddress_callback (address : Bech32Address)
    (txRes : TxResult) : M unit :=
  match res_tx txRes with
  | None => mret tt
  | Some t =>
      let state := toTxState PROCESSED (Some (default 0 (res_status txRes))) in
      match toTx t state with
      | None => mret tt
      | Some tx =>
          upsertTransaction address
            (mkTx (id tx) (status tx) (receipt tx)
               (<["layer"%string := from_option VNum VUndefined (res_layer txRes)]> (fields tx)))
      end
  end.

(** [longToNumber(x || 0)] *)
Definition snapshot_of (o : option AccountState__Output) : StateSnapshot :=
  {| counter := from_option out_counter 0 o;
     balance := default 0 (o ≫= out_balance) |}.

Definition updateAccountData (address : Bech32Address) (d : Account__Output) : M unit :=
  present ← hasAccount address;
  if negb present then mret tt
  else
    let currentState := snapshot_of (stateCurrent d) in
    let projectedState := snapshot_of (stateProjected d) in
    stillPresent ← hasAccount address;
    (if (stillPresent : bool) then
       a ← theAccount address;
       putAccount address
         (AccountStateManager.storeState (mkBalance currentState projectedState) a)
     else mret tt);;
    updateAppStateAccount address.

(** [hasRequiredRewardFields] with the parse that follows it. The guard
    (shared/types/guards) is not among the sources; it is taken to hold when
    the four members the parse reads are there. *)
Definition parseReward (reward : Reward__Output) : option Reward :=
  match rw_layer reward, rw_total reward, rw_layerReward reward, rw_coinbase reward with
  | Some l, Some t, Some lr, Some c => Some (mkReward l t lr c)
  | _, _, _, _ => None
  end.

Definition addReward (accountId : Bech32Address) (reward : option Reward__Output) : M unit :=
  match reward with
  | None => mret tt
  | Some r =>
      match parseReward r with
      | None => mret tt
      | Some parsedReward => storeReward accountId parsedReward
      end
  end.

End Methods.

(** ** The paginated walks *)

Section Fetch.
Context `{Imports}.
Context {Svc W A : Type}.

(** [this.meshService.requestMeshTransactions(accountId, offset)]: the remote
    service answers and moves to its next state. *)
Variable requestMeshTransactions : Svc -> Bech32Address -> Z -> MeshReply A * Svc.

(** [retrieveHistoricTxData]. [handler] acts on whatever it closes over
    ([W]). The recursion of the source need not end (the service may report
    ever more results), hence the fuel: [None] is a walk cut short. *)
Fixpoint retrieveHistoricTxData (fuel : nat) (accountId : Bech32Address) (offset : Z)
    (handler : A -> W -> W) (retries : Z) (s : Svc) (w : W) : option (Svc * W) :=
  match fuel with
  | O => None
  | S fuel' =>
      let '(r, s') := requestMeshTransactions s accountId offset in
      if bool_decide (is_Some (error r)) && (retries <? 5) then
        retrieveHistoricTxData fuel' accountId offset handler (retries + 1) s' w
      else
        let w' := foldl (fun w tx => handler (meshTransaction tx) w) w (data r) in
        if offset + GRPC_QUERY_BATCH_SIZE <? totalResults r then
          retrieveHistoricTxData fuel' accountId (offset + GRPC_QUERY_BATCH_SIZE)
            handler 0 s' w'
        else Some (s', w')
  end.

(** [this.glStateService.sendAccountDataQuery({ filter, offset: 0 })] for the
    account flag. *)
Variable sendAccountDataQuery : Svc -> Bech32Address -> AccountDataReply * Svc.

(** [retrieveAccountData] *)
Fixpoint retrieveAccountData (fuel : nat) (address : Bech32Address)
    (handler : Account__Output -> W -> W) (retries : Z) (s : Svc) (w : W)
    : option (Svc * W) :=
  match fuel with
  | O => None
  | S fuel' =>
      let '(r, s') := sendAccountDataQuery s address in
      if bool_decide (is_Some (ad_error r)) && (retries <? 5) then
        retrieveAccountData fuel' address handler (retries + 1) s' w
      else
        match ad_data r with
        | d :: _ => Some (s', handler d w)
        | [] => Some (s', w)
        end
  end.

End Fetch.

(** ** Adding and replacing accounts *)

Section Accounts.
Context `{Imports}.

(** [Array.prototype.findIndex]: the first index whose entry passes, or -1. *)
Fixpoint findIndex {A} (p : A -> bool) (l : list A) : Z :=
  match l with
  | [] => -1
  | x :: l' => if p x then 0 else let i := findIndex p l' in if i <? 0 then -1 else i + 1
  end.

(** [l.slice(start, end)] and [l.slice(start)] for bounds that are not negative. *)
Definition slice {A} (start stop : Z) (l : list A) : list A :=
  take (Z.to_nat (stop - start)) (drop (Z.to_nat start) l).

Definition slice_from {A} (start : Z) (l : list A) : list A :=
  drop (Z.to_nat start) l.

(** [this.unsubs[address].push(cancel)] *)
Definition push_unsub (address : Bech32Address) (c : Stream) : M unit :=
  fun m =>
    match unsubs m !! address with
    | Some l => (Returned tt, set_unsubs (<[address := l ++ [c]]> (unsubs m)) m)
    | None => (Thrown TypeError, m)
    end.

(** [subscribeAccount]: what it does before returning. The queries it starts
    ([retrieveHistoricTxData], [retrieveAccountData], [retrieveRewards]) and
    the feeds it opens answer later, through the callbacks it handed over. *)
Definition subscribeAccount (address : Bech32Address) : M unit :=
  push_unsub address MeshTransactions;;
  push_unsub address AccountDataStream;;
  push_unsub address TransactionsByAddress;;
  a ← theAccount address;
  (if bool_decide (dom (AccountStateManager.getTxs a) = ∅) then mret tt
   else subscribeTransactions address);;
  push_unsub address RewardsByCoinbase.

(** The keychain [addAccount] leaves. *)
Definition keychain_with (keypair : KeyPair) (keychain : list KeyPair) : list KeyPair :=
  let idx := findIndex (fun kp => String.eqb (publicKey kp) (publicKey keypair)) keychain in
  (if -1 <? idx
   then slice 0 (Z.max 0 (idx - 1)) keychain ++ slice_from (idx + 1) keychain
   else keychain) ++ [keypair].

Definition addAccount (keypair : KeyPair) : M unit :=
  let address := principalAddress 0 (publicKey keypair) in
  modify (fun m => set_keychain (keychain_with keypair (keychain m)) m);;
  putAccount address (newAccountStateManager address);;
  updateAppStateTxs address;;
  updateAppStateRewards address;;
  modify (fun m => set_unsubs (<[address := []]> (unsubs m)) m);;
  subscribeAccount address.

(** [accounts.forEach(f)] *)
Fixpoint forEach {A} (f : A -> M unit) (l : list A) : M unit :=
  match l with
  | [] => mret tt
  | x :: l' => f x;; forEach f l'
  end.

Definition setAccounts (accounts : list KeyPair) : M unit :=
  unsubscribeAllStreams;;
  modify (set_keychain []);;
  modify (set_accountStates ∅);;
  forEach addAccount accounts.

(** [updateTxNote] *)
Definition updateTxNote (address : Bech32Address) (txId : HexString) (note : string) : M unit :=
  a ← theAccount address;
  let tx := AccountStateManager.getTxById (Some txId) a in
  upsertTransaction address
    (mkTx (tx ≫= id) (status_opt tx) (receipt_opt tx)
       (<["note"%string := VStr note]> (from_option fields ∅ tx))).

End Accounts.

(** ** Submitting transactions *)

Record PublishResult : Type := mkPublishResult {
  pub_error : option Error;
  pub_tx : option Tx
}.

Record TxSendRequest : Type := mkSendRequest {
  receiver : Bech32Address;
  send_amount : Z;
  send_fee : Z;
  send_note : option string
}.

Section Publish.
Context `{Imports}.

(** [response.txstate?.id?.id], as a condition *)
Definition has_tx_id (response : SubmitResponse) : bool :=
  match txstate response with
  | Some ts =>
      match ts_id ts with
      | Some i => bool_decide (is_Some (id_bytes i))
      | None => false
      end
  | None => false
  end.

(** [response.txstate.id.id], read once the condition holds *)
Definition tx_id_bytes (response : SubmitResponse) : list Z :=
  match txstate response with
  | Some ts =>
      match ts_id ts with
      | Some i => default [] (id_bytes i)
      | None => []
      end
  | None => []
  end.

(** The [error] both publishing methods compute from the response. *)
Definition publish_error (response : SubmitResponse) : option Error :=
  if bool_decide (is_Some (submit_error response))
     || bool_decide (txstate response = None)
     || negb (has_tx_id response)
  then Some (default TxResponseError (submit_error response))
  else None.

(** A promise nobody awaits: what it throws is not the caller's. *)
Definition detached (c : M unit) : M unit :=
  try_catch c (fun _ => mret tt).

(** [x || d] on a counter *)
Definition or_default (x d : Z) : Z := if x =? 0 then d else x.

(** [this.keychain[accountIndex]], destructured *)
Definition theKeyPair (accountIndex : nat) : M KeyPair :=
  fun m =>
    match keychain m !! accountIndex with
    | Some kp => (Returned kp, m)
    | None => (Thrown TypeError, m)
    end.

(** [const { projectedState } = this.accountStates[address].getState()] *)
Definition theProjectedCounter (address : Bech32Address) : M Z :=
  a ← theAccount address;
  match AccountStateManager.getState a with
  | Some st => mret (counter (projectedState st))
  | None => throw TypeError
  end.

(** The follow-up [retrieveAccountData({ ..., handler: this.updateAccountData(address) })]:
    [followUp] is the entry that query ends up handing to the handler, if any. *)
Definition refreshAccountData (address : Bech32Address) (followUp : option Account__Output)
  : M unit :=
  match followUp with
  | Some d => detached (updateAccountData address d)
  | None => mret tt
  end.

(** [publishSelfSpawn]. [response] is the answer of [submitTransaction] and
    [currentLayer] that of [getCurrentLayer]; the awaited calls are taken to
    resolve. *)
Definition publishSelfSpawn (fee : Z) (accountIndex : nat)
    (response : SubmitResponse) (currentLayer : Z) (followUp : option Account__Output)
  : M PublishResult :=
  try_catch
    (kp ← theKeyPair accountIndex;
     let address := principalAddress 0 (publicKey kp) in
     projectedCounter ← theProjectedCounter address;
     let payload :=
       VObj [("Nonce"%string,
              VObj [("Counter"%string, VNum (or_default projectedCounter 0));
                    ("Bitfield"%string, VNum 0)]);
             ("GasPrice"%string, VNum fee);
             ("Arguments"%string, VObj [("PublicKey"%string, VStr (publicKey kp))])] in
     let error := publish_error response in
     let method := 0 in
     let tx :=
       if bool_decide (submit_error response = None) && has_tx_id response
       then Some
         (mkTx (Some (toHexString (tx_id_bytes response)))
            (toTxState (from_option ts_state 0 (txstate response)) None)
            None
            (list_to_map
               [("template"%string, VStr templateAddress);
                ("method"%string, VNum method);
                ("principal"%string, VStr address);
                ("gas"%string,
                 VObj [("gasPrice"%string, VNum fee);
                       ("maxGas"%string, VNum MAX_GAS);
                       ("fee"%string, VNum (fee * MAX_GAS))]);
                ("payload"%string, payload);
                ("meta"%string,
                 VObj [("templateName"%string, VStr templateName);
                       ("methodName"%string, VStr (methodName method))]);
                ("layer"%string, VNum currentLayer)]))
       else None in
     match tx with
     | Some t => detached (upsertTransaction address t)
     | None => mret tt
     end;;
     refreshAccountData address followUp;;
     mret (mkPublishResult error tx))
    (fun err => logError err;; mret (mkPublishResult (Some err) None)).

(** [publishSpendTx] *)
Definition publishSpendTx (fullTx : TxSendRequest) (accountIndex : nat)
    (response : SubmitResponse) (currentLayer : Z) (followUp : option Account__Output)
  : M PublishResult :=
  try_catch
    (kp ← theKeyPair accountIndex;
     let address := principalAddress 1 (publicKey kp) in
     projectedCounter ← theProjectedCounter address;
     match Bech32_parse (receiver fullTx) with
     | None => throw (ServiceError "Bech32.parse")
     | Some destination =>
         let nonce :=
           VObj [("Counter"%string, VNum (or_default projectedCounter 1));
                 ("Bitfield"%string, VNum 0)] in
         let error := publish_error response in
         let method := 1 in
         let tx :=
           if bool_decide (submit_error response = None) && has_tx_id response
           then Some
             (mkTx (Some (toHexString (tx_id_bytes response)))
                (toTxState (from_option ts_state 0 (txstate response)) None)
                None
                ((match send_note fullTx with
                  | Some n => if String.eqb n "" then ∅ else {["note"%string := VStr n]}
                  | None => ∅
                  end) ∪
                 list_to_map
                   [("template"%string, VStr templateAddress);
                    ("method"%string, VNum method);
                    ("principal"%string, VStr address);
                    ("gas"%string,
                     VObj [("gasPrice"%string, VNum (send_fee fullTx));
                           ("maxGas"%string, VNum MAX_GAS);
                           ("fee"%string, VNum (send_fee fullTx * MAX_GAS))]);
                    ("payload"%string,
                     VObj [("Arguments"%string,
                            VObj [("Destination"%string,
                                   VStr (Bech32_generateAddress destination));
                                  ("Amount"%string, VNum (send_amount fullTx))]);
                           ("Nonce"%string, nonce);
                           ("GasPrice"%string, VNum (send_fee fullTx))]);
                    ("meta"%string,
                     VObj [("templateName"%string, VStr templateName);
                           ("methodName"%string, VStr (methodName method))]);
                    ("layer"%string, VNum currentLayer)]))
           else None in
         match tx with
         | Some t => detached (upsertTransaction address t)
         | None => mret tt
         end;;
         refreshAccountData address followUp;;
         mret (mkPublishResult error tx)
     end)
    (fun err => logError err;; mret (mkPublishResult (Some err) None)).

End Publish.

(** ** What can still run after the account set was replaced *)

Section Events.
Context `{Imports}.

(** The callbacks the manager left with the services, the timer and its own
    pending promises. Any of them may be invoked at any later time, in any
    order. *)
Inductive event : Type :=
| TxStatePushed (publicKey : Bech32Address) (tx : TxStatePush)
| MeshTxDelivered (address : Bech32Address) (tx : option MeshTransaction__Output)
| TxResultPushed (address : Bech32Address) (txRes : TxResult)
| AccountDataDelivered (address : Bech32Address) (d : Account__Output)
| RewardDelivered (address : Bech32Address) (reward : option Reward__Output)
| StoreTxSettled (address : Bech32Address)
| StoreRewardSettled (address : Bech32Address)
| DebounceTimerFired.

Definition fire (e : event) : M unit :=
  match e with
  | TxStatePushed publicKey tx => handleNewTx publicKey tx
  | MeshTxDelivered address tx => upsertTransactionFromMesh address tx
  | TxResultPushed address txRes => watchTransactionsByAddress_callback address txRes
  | AccountDataDelivered address d => updateAccountData address d
  | RewardDelivered address reward => addReward address reward
  | StoreTxSettled address => upsertTransaction_resume address
  | StoreRewardSettled address => storeReward_settled address
  | DebounceTimerFired =>
      fun m =>
        match debounced m with
        | Some publicKey => subscribeTransactions_body publicKey (set_debounced None m)
        | None => (Returned tt, m)
        end
  end.

(** Each callback runs to its end (or to the exception nobody catches), one
    after the other. *)
Definition run (es : list event) (m : TransactionManager) : TransactionManager :=
  foldl (fun m e => exec (fire e) m) m es.

End Events.

(** ** The vocabulary of the properties *)

(** The record stored for [txId] in the account [address], if both exist. *)
Definition storedTx (address : Bech32Address) (txId : HexString) (m : TransactionManager)
  : option Tx :=
  match accountStates m !! address with
  | Some a => AccountStateManager.getTxById (Some txId) a
  | None => None
  end.

(** The ledger of every account: what "the transaction store" of a manager is. *)
Definition ledgers (m : TransactionManager) : gmap Bech32Address (gmap string Tx) :=
  txs <$> accountStates m.

(** A status above [PROCESSED] (success, failure, invalid). *)
Definition terminal `{Imports} (s : jsnum) : Prop :=
  js_gt s (JNum PROCESSED) = true.

Section Vocabulary.
Context `{Imports}.

(** The status [upsertTransaction] stores: the stored one when it is terminal
    and compares greater than the incoming one, else the incoming one. *)
Definition keptStatus (stored incoming : jsnum) : jsnum :=
  if js_gt stored (JNum PROCESSED) && js_gt stored incoming then stored else incoming.

End Vocabulary.

(** Two incoming receipts agree when they give every member both carry the
    same value (no condition when one update has no receipt). *)
Definition receipts_agree (r1 r2 : option (gmap string value)) : Prop :=
  match r1, r2 with
  | Some a, Some b => map_agree a b
  | _, _ => True
  end.

(** The record of a note alone: every other property unset. *)
Definition noteOnly (note : string) : Tx :=
  mkTx None JUndefined None {[ "note"%string := VStr note ]}.

(** A record that populates no property other than [note]. *)
Definition carriesOnlyNote (r : Tx) : Prop :=
  id r = None /\ status r = JUndefined /\ receipt r = None
  /\ forall k, k <> "note"%string -> fields r !! k = None.

(** Nothing reaches the window, and no store appears. *)
Definition silent (m m' : TransactionManager) : Prop :=
  accountStates m' = accountStates m /\ sent m' = sent m.

(** A service together with the list of the offsets it was asked for. *)
Definition recording {Svc A : Type}
    (request : Svc -> Bech32Address -> Z -> MeshReply A * Svc)
  : Svc * list Z -> Bech32Address -> Z -> MeshReply A * (Svc * list Z) :=
  fun st accountId offset =>
    let '(r, s') := request (fst st) accountId offset in
    (r, (s', snd st ++ [offset])).

(** A handler that keeps what it is handed, in order. *)
Definition deliver {A : Type} (x : A) (delivered : list A) : list A :=
  delivered ++ [x].

(** The state of a service after [k] requests at one offset, and its answer
    to the next one. *)
Fixpoint after_attempts {Svc A : Type}
    (request : Svc -> Bech32Address -> Z -> MeshReply A * Svc)
    (accountId : Bech32Address) (offset : Z) (k : nat) (s : Svc) : Svc :=
  match k with
  | O => s
  | S k' => snd (request (after_attempts request accountId offset k' s) accountId offset)
  end.

Definition attempt {Svc A : Type}
    (request : Svc -> Bech32Address -> Z -> MeshReply A * Svc)
    (accountId : Bech32Address) (offset : Z) (k : nat) (s : Svc) : MeshReply A :=
  fst (request (after_attempts request accountId offset k s) accountId offset).

(** ** A concrete choice of the imports, for the closed examples *)

(** Modelled from the spec: the enumeration [TxState] (shared/types) is not
    among the sources. Section 3 of the specification orders the statuses
    pending < processed < success / failure / invalid, the last three being
    terminal; they are numbered here in that order. *)
Module TxState.
Definition PENDING : Z := 1.
Definition PROCESSED : Z := 2.
Definition SUCCESS : Z := 3.
Definition FAILURE : Z := 4.
Definition INVALID : Z := 5.
End TxState.

Definition emptyAccount : AccountState :=
  {| state := None; txs := ∅; rewards := [] |}.

(** The wire transaction is taken to be the record [toTx] makes of it. *)
Definition sampleImports : Imports :=
  {| PROCESSED := TxState.PROCESSED;
     GRPC_QUERY_BATCH_SIZE := 100;
     MAX_GAS := 500;
     principalAddress := fun _ pk => pk;
     newAccountStateManager := fun _ => emptyAccount;
     toTxState := fun s r => JNum (s + default 0 r);
     toHexString := fun _ => "00"%string;
     Bech32_parse := fun _ => Some [];
     Bech32_generateAddress := fun _ => "sm1q"%string;
     templateAddress := "sm1qtemplate"%string;
     templateName := "SingleSig"%string;
     methodName := fun _ => "Spend"%string;
     Transaction__Output := Tx;
     toTx := fun t s => Some (mkTx (id t) s (receipt t) (fields t));
     tx_id_present := fun t => bool_decide (is_Some (id t)) |}.

Definition emptyManager : TransactionManager :=
  mkManager [] ∅ ∅ ∅ None [] [].

(** A manager tracking the account ["sm1qacct"], whose ledger holds the
    transaction ["aa"] with the given status. *)
Definition managerWith (s : Z) : TransactionManager :=
  set_accountStates
    {[ "sm1qacct"%string :=
         {| state := None;
            txs := {[ "aa"%string := mkTx (Some "aa"%string) (JNum s) None ∅ ]};
            rewards := [] |} ]}
    emptyManager.

(** The same account with an empty ledger. *)
Definition managerFresh : TransactionManager :=
  set_accountStates {[ "sm1qacct"%string := emptyAccount ]} emptyManager.

(** An update for ["aa"] that carries a status and nothing else. *)
Definition statusUpdate (s : Z) : Tx :=
  mkTx (Some "aa"%string) (JNum s) None ∅.

(** A ledger of 250 records served 100 a page, whose query at offset 100
    answers [failure] as long as the counter of failures left is not 0. *)
Definition pageAt {A : Type} (record : nat -> A) (offset : Z) : list (AccountMeshData A) :=
  map (fun i => mkMeshData (record i))
    (seq (Z.to_nat offset) (Z.to_nat (Z.min 100 (250 - offset)))).

Definition flaky {A : Type} (record : nat -> A) (failure : MeshReply A)
  : nat -> Bech32Address -> Z -> MeshReply A * nat :=
  fun failuresLeft _ offset =>
    if (offset =? 100) && negb (Nat.eqb failuresLeft 0)
    then (failure, Nat.pred failuresLeft)
    else (mkMeshReply (pageAt record offset) 250 None, failuresLeft).

(** A service that fails every query and still reports 250 results. *)
Definition stubborn : unit -> Bech32Address -> Z -> MeshReply nat * unit :=
  fun _ _ _ => (mkMeshReply [] 250 (Some (ServiceError "unavailable")), tt).

(** A service that fails every query, reporting no result. *)
Definition unavailable : unit -> Bech32Address -> Z -> MeshReply nat * unit :=
  fun _ _ _ => (mkMeshReply [] 0 (Some (ServiceError "unavailable")), tt).

(** A manager tracking ["sm1qacct"] with a snapshot loaded, the key pair of
    that account in its keychain. *)
Definition managerReady : TransactionManager :=
  set_keychain [mkKeyPair "sm1qacct" "sk"]
    (set_accountStates
       {[ "sm1qacct"%string :=
            {| state := Some (mkBalance (mkSnapshot 3 1000) (mkSnapshot 4 900));
               txs := {[ "aa"%string := mkTx (Some "aa"%string) (JNum 1) None ∅ ]};
               rewards := [] |} ]}
       emptyManager).

(** ** More vocabulary: the ledgers and what the callbacks keep *)


(** The record [updateTxNote] hands over for a stored record [r]. *)
Definition withNote (note : string) (r : Tx) : Tx :=
  mkTx (id r) (status r) (receipt r) (<[ "note"%string := VStr note ]> (fields r)).

(** The address [addAccount] derives for a key pair, and the four feeds it
    registers a cancel function for, in the order it opens them. *)
Definition accountAddress `{Imports} (keypair : KeyPair) : Bech32Address :=
  principalAddress 0 (publicKey keypair).

Definition accountFeeds : list Stream :=
  [MeshTransactions; AccountDataStream; TransactionsByAddress; RewardsByCoinbase].

(** What one callback can do to the manager: nothing the window or the
    stores see, or one store replaced (its ledger the same or with one record
    filed under its id) together with one message about that account. *)
Inductive callback_effect (m : TransactionManager) : TransactionManager -> Prop :=
| effect_quiet m' :
    accountStates m' = accountStates m -> sent m' = sent m ->
    keychain m' = keychain m -> unsubs m' = unsubs m ->
    callback_effect m m'
| effect_store address a a' n m' :
    accountStates m !! address = Some a ->
    accountStates m' = <[address := a']> (accountStates m) ->
    (txs a' = txs a \/ exists tx, txs a' = <[txKey (id tx) := tx]> (txs a)) ->
    sent m' = sent m ++ [n] -> ipc_account n = address ->
    keychain m' = keychain m -> unsubs m' = unsubs m ->
    callback_effect m m'.

(** ** The reward queries *)

(** The answer of [sendAccountDataQuery] for the reward flag: [data] is an
    array whose entries may be [null] or incomplete. *)
Record RewardsReply : Type := mkRewardsReply {
  rr_data : list (option Reward__Output);
  rr_totalResults : Z;
  rr_error : option Error
}.

(** [!!item && hasRequiredRewardFields(item)] *)
Definition validRewardItem (item : option Reward__Output) : bool :=
  match item with
  | Some r => bool_decide (is_Some (parseReward r))
  | None => false
  end.

Section RewardQueries.
Context `{Imports}.
Context {Svc : Type}.

(** [this.glStateService.sendAccountDataQuery({ filter, offset })] for the
    rewards of a coinbase. *)
Variable sendRewardsQuery : Svc -> Bech32Address -> Z -> RewardsReply * Svc.

(** [getAccountDataQuery(batch, retries = 5)], the helper inside
    [retrieveRewards] (the delay between two attempts is not modelled). *)
Fixpoint getAccountDataQuery (coinbase : Bech32Address) (offset batch : Z)
    (retries : nat) (s : Svc) : RewardsReply * Svc :=
  let '(res, s') :=
    sendRewardsQuery s coinbase (offset + batch * GRPC_QUERY_BATCH_SIZE) in
  match retries with
  | S retries' =>
      if bool_decide (is_Some (rr_error res))
      then getAccountDataQuery coinbase offset batch retries' s'
      else (res, s')
  | O => (res, s')
  end.

(** [retrieveRewards(coinbase, offset = 0)]. The recursion on the next
    offset need not end, hence the fuel. *)
Fixpoint retrieveRewards (fuel : nat) (coinbase : Bech32Address) (offset : Z) (s : Svc)
  : option (list (option Reward__Output) * Svc) :=
  match fuel with
  | O => None
  | S fuel' =>
      let '(res, s') := getAccountDataQuery coinbase offset 0 5 s in
      if rr_totalResults res <=? GRPC_QUERY_BATCH_SIZE
      then Some (filter (fun item => validRewardItem item = true) (rr_data res), s')
      else
        match retrieveRewards fuel' coinbase (offset + GRPC_QUERY_BATCH_SIZE) s' with
        | Some (nextRewards, s'') => Some (rr_data res ++ nextRewards, s'')
        | None => None
        end
  end.

(** Modelled from the spec: [lastSyncedRewardsLayer] belongs to
    [AccountStateManager], which is not among the sources. Section 4.1 of
    the specification: the maximum layer height observed across the stored
    rewards, zero when there is none. *)
Definition lastSyncedRewardsLayer (a : AccountState) : Z :=
  foldr Z.max 0 (layer <$> rewards a).

(** [retrieveNewRewards(coinbase)] *)
Definition retrieveNewRewards (fuel : nat) (coinbase : Bech32Address)
    (m : TransactionManager) (s : Svc) : option (list Reward * Svc) :=
  let oldRewards :=
    from_option AccountStateManager.getRewards [] (accountStates m !! coinbase) in
  let cursor := from_option lastSyncedRewardsLayer 0 (accountStates m !! coinbase) in
  match retrieveRewards fuel coinbase cursor s with
  | Some (items, s') =>
      let newRewards :=
        foldl (fun acc reward =>
                 match reward ≫= parseReward with
                 | Some parsedReward => acc ++ [parsedReward]
                 | None => acc
                 end) [] items in
      Some (oldRewards ++ newRewards, s')
  | None => None
  end.

End RewardQueries.

(** ** Services to state the walks against *)

(** A service that answers from a script, one answer per query whatever the
    offset, and keeps the offsets it was asked for; past the script it
    answers an empty page. *)
Definition scripted (st : list RewardsReply * list Z) (coinbase : Bech32Address) (offset : Z)
  : RewardsReply * (list RewardsReply * list Z) :=
  match fst st with
  | r :: rest => (r, (rest, snd st ++ [offset]))
  | [] => (mkRewardsReply [] 0 None, ([], snd st ++ [offset]))
  end.

(** A service together with the number of queries it has answered. *)
Definition counting {Svc R : Type} (query : Svc -> Bech32Address -> R * Svc)
  : Svc * nat -> Bech32Address -> R * (Svc * nat) :=
  fun st address =>
    let '(r, s') := query (fst st) address in (r, (s', S (snd st))).

(** A ledger served by pages of [pageSize] entries: the page at [offset] and
    the total, always. Each offset has a number of failures left (none when
    the table has no entry); a query at an offset that has failures left
    answers [failure] and uses one up. *)
Definition ledgerPage {A : Type} (records : list A) (pageSize offset : Z)
  : list (AccountMeshData A) :=
  mkMeshData <$> take (Z.to_nat pageSize) (drop (Z.to_nat offset) records).

Definition ledgerService {A : Type} (records : list A) (pageSize : Z) (failure : MeshReply A)
  : gmap Z nat -> Bech32Address -> Z -> MeshReply A * gmap Z nat :=
  fun failuresLeft _ offset =>
    match failuresLeft !! offset with
    | Some (S k) => (failure, <[offset := k]> failuresLeft)
    | _ => (mkMeshReply (ledgerPage records pageSize offset)
              (Z.of_nat (length records)) None, failuresLeft)
    end.

(** No offset has more than five failures left: every page answers within
    the retries of one page. *)
Definition failures_bounded (st : gmap Z nat) : Prop :=
  map_Forall (fun _ k => (k <= 5)%nat) st.

(** A page of rewards after which [retrieveRewards] asks for the next one. *)
Definition page_goes_on `{Imports} (r : RewardsReply) : Prop :=
  rr_error r = None /\ GRPC_QUERY_BATCH_SIZE < rr_totalResults r.

(** The offsets of [n] consecutive pages from [offset] on. *)
Fixpoint pageOffsets (pageSize offset : Z) (n : nat) : list Z :=
  match n with
  | O => []
  | S n' => offset :: pageOffsets pageSize (offset + pageSize) n'
  end.

(** ** More sample data *)

(** An installation whose stores load with the transaction ["aa"] already on
    file. *)
Definition restoredImports : Imports :=
  {| PROCESSED := TxState.PROCESSED;
     GRPC_QUERY_BATCH_SIZE := 100;
     MAX_GAS := 500;
     principalAddress := fun _ pk => pk;
     newAccountStateManager := fun _ =>
       {| state := None;
          txs := {[ "aa"%string := statusUpdate TxState.PENDING ]};
          rewards := [] |};
     toTxState := fun s r => JNum (s + default 0 r);
     toHexString := fun _ => "00"%string;
     Bech32_parse := fun _ => Some [];
     Bech32_generateAddress := fun _ => "sm1q"%string;
     templateAddress := "sm1qtemplate"%string;
     templateName := "SingleSig"%string;
     methodName := fun _ => "Spend"%string;
     Transaction__Output := Tx;
     toTx := fun t s => Some (mkTx (id t) s (receipt t) (fields t));
     tx_id_present := fun t => bool_decide (is_Some (id t)) |}.

(** A manager tracking ["sm1qacct"], whose transaction ["aa"] has a receipt
    and a layer, and ["sm1qother"], whose ledger is empty. *)
Definition managerPair : TransactionManager :=
  set_accountStates
    {[ "sm1qacct"%string :=
         {| state := None;
            txs := {[ "aa"%string :=
                        mkTx (Some "aa"%string) (JNum TxState.PENDING)
                          (Some {[ "fee"%string := VNum 1 ]})
                          {[ "layer"%string := VNum 5 ]} ]};
            rewards := [] |};
       "sm1qother"%string := emptyAccount ]}
    emptyManager.

(** A manager tracking ["sm1qacct"] with one reward, of layer 7, on file. *)
Definition managerRewarded : TransactionManager :=
  set_accountStates
    {[ "sm1qacct"%string :=
         {| state := None; txs := ∅;
            rewards := [mkReward 7 50 40 "sm1qacct"] |} ]}
    emptyManager.

(** A failed answer, and two pages of rewards: one that announces more,
    with a [null] and an incomplete entry, and a last one. *)
Definition failedRewards : RewardsReply :=
  mkRewardsReply [] 0 (Some (ServiceError "unavailable")).

Definition rewardsPage : RewardsReply :=
  mkRewardsReply
    [None; Some (mkRewardOut (Some 8) None None None);
     Some (mkRewardOut (Some 8) (Some 50) (Some 40) (Some "sm1qacct"%string))]
    150 None.

Definition lastRewardsPage : RewardsReply :=
  mkRewardsReply
    [Some (mkRewardOut (Some 9) (Some 50) (Some 40) (Some "sm1qacct"%string)); None]
    50 None.

(** * Properties *)

Ltac unfold_M :=
  cbv beta iota delta [mbind mret M_bind M_ret modify throw try_catch theAccount
    hasAccount putAccount appStateUpdater logError exec result fst snd] in *.

Section MergeProperties.
Context `{Imports}.

(** ** What one [upsertTransaction] does *)

Lemma upsertTransaction_absent address tx m :
  accountStates m !! address = None ->
  upsertTransaction address tx m = (Returned tt, m).
Proof.
  intros Hno. unfold upsertTransaction, upsertTransaction_begin. unfold_M.
  rewrite Hno. rewrite bool_decide_eq_false_2 by (intros [? ?]; discriminate).
  reflexivity.
Qed.

Lemma upsertTransaction_present address tx m a :
  accountStates m !! address = Some a ->
  let a' := AccountStateManager.storeTransaction
              (mergeTx (AccountStateManager.getTxById (id tx) a) tx) a in
  upsertTransaction address tx m =
    (Returned tt,
     mkManager (keychain m) (<[address := a']> (accountStates m)) (unsubs m)
       (txStateStream m) (Some address)
       (sent m ++ [T_M_UPDATE_TXS (txs a') address]) (logged m)).
Proof.
  intros Ha a'.
  unfold upsertTransaction, upsertTransaction_begin, upsertTransaction_resume,
    storeTx_settled, storeTx_call, updateAppStateTxs, subscribeTransactions.
  unfold_M. rewrite bool_decide_eq_true_2 by eauto.
  repeat first [rewrite Ha | rewrite lookup_insert_eq | progress simpl].
  reflexivity.
Qed.

(** ** The status rule *)

Lemma mergeTx_status originalTx tx :
  status (mergeTx originalTx tx) = keptStatus (status_opt originalTx) (status tx).
Proof. reflexivity. Qed.

Lemma keptStatus_terminal_lower s n :
  PROCESSED < s -> n < s -> keptStatus (JNum s) (JNum n) = JNum s.
Proof.
  intros Hs Hn. unfold keptStatus, js_gt. simpl.
  destruct (Z.ltb_spec PROCESSED s); [|lia].
  destruct (Z.ltb_spec n s); [reflexivity|lia].
Qed.

Lemma keptStatus_max s n :
  PROCESSED < s -> keptStatus (JNum s) (JNum n) = JNum (Z.max s n).
Proof.
  intros Hs. unfold keptStatus, js_gt. simpl.
  destruct (Z.ltb_spec PROCESSED s); [|lia].
  destruct (Z.ltb_spec n s); simpl; f_equal; lia.
Qed.

(** Whatever the numbering of the terminal statuses, the higher of two
    replaces the lower: a stored terminal status is not frozen. *)
Lemma keptStatus_higher s n :
  s < n -> keptStatus (JNum s) (JNum n) = JNum n.
Proof.
  intros Hlt. unfold keptStatus, js_gt. simpl.
  destruct (Z.ltb_spec n s); [lia|]. rewrite andb_false_r. reflexivity.
Qed.

(** An update that carries no status leaves none: [x > undefined] is false. *)
Lemma keptStatus_undefined stored :
  keptStatus stored JUndefined = JUndefined.
Proof.
  unfold keptStatus, js_gt. destruct (toNumber stored); simpl;
    rewrite ?andb_false_r; reflexivity.
Qed.

Lemma keptStatus_not_terminal stored incoming :
  js_gt stored (JNum PROCESSED) = false -> keptStatus stored incoming = incoming.
Proof. intros Hnt. unfold keptStatus. rewrite Hnt. reflexivity. Qed.

Lemma keptStatus_swap stored n1 n2 :
  n1 = n2 \/ PROCESSED < n1 \/ PROCESSED < n2 \/ terminal stored ->
  keptStatus (keptStatus stored (JNum n1)) (JNum n2)
  = keptStatus (keptStatus stored (JNum n2)) (JNum n1).
Proof.
  unfold terminal, keptStatus, js_gt. intros Hc.
  destruct stored as [| |s]; simpl in *;
    repeat match goal with
    | |- context [?x <? ?y] => destruct (Z.ltb_spec x y); simpl
    | Hx : context [?x <? ?y] |- _ => destruct (Z.ltb_spec x y); simpl in Hx
    end;
    try reflexivity; try (f_equal; lia);
    try (exfalso; destruct Hc as [?|[?|[?|?]]]; (lia || discriminate)).
Qed.

(** The condition is the exact one: two different statuses at or below
    [PROCESSED], met by a stored status that is not terminal, end as the one
    applied last. *)
Lemma keptStatus_last_wins stored n1 n2 :
  n1 <= PROCESSED -> n2 <= PROCESSED -> js_gt stored (JNum PROCESSED) = false ->
  keptStatus (keptStatus stored (JNum n1)) (JNum n2) = JNum n2.
Proof.
  intros H1 H2 Hnt.
  rewrite (keptStatus_not_terminal stored (JNum n1) Hnt).
  apply keptStatus_not_terminal. unfold js_gt. simpl.
  destruct (Z.ltb_spec PROCESSED n1); [lia|reflexivity].
Qed.

(** ** The field rule *)

Lemma union_swap_agree (m1 m2 m : gmap string value) :
  map_agree m1 m2 -> m2 ∪ (m1 ∪ m) = m1 ∪ (m2 ∪ m).
Proof.
  intros Hag. apply map_eq. intros k. rewrite !lookup_union.
  destruct (m1 !! k) as [v1|] eqn:E1, (m2 !! k) as [v2|] eqn:E2,
    (m !! k) as [v|] eqn:E; simpl; try reflexivity;
    rewrite (proj1 (map_agree_spec m1 m2) Hag k v1 v2 E1 E2); reflexivity.
Qed.

Lemma mergeTx_swap originalTx u1 u2 txId n1 n2 :
  id u1 = Some txId -> id u2 = Some txId ->
  map_agree (fields u1) (fields u2) ->
  receipts_agree (receipt u1) (receipt u2) ->
  status u1 = JNum n1 -> status u2 = JNum n2 ->
  n1 = n2 \/ PROCESSED < n1 \/ PROCESSED < n2 \/ terminal (status_opt originalTx) ->
  mergeTx (Some (mergeTx originalTx u1)) u2 = mergeTx (Some (mergeTx originalTx u2)) u1.
Proof.
  intros Hi1 Hi2 Hf Hr Hs1 Hs2 Hc.
  pose proof (keptStatus_swap (status_opt originalTx) n1 n2 Hc) as Hst.
  unfold keptStatus in Hst.
  unfold mergeTx. simpl. rewrite Hi1, Hi2, Hs1, Hs2. f_equal.
  - exact Hst.
  - unfold receipts_agree in Hr.
    destruct (receipt u1) as [r1|], (receipt u2) as [r2|]; simpl; try reflexivity.
    f_equal. apply union_swap_agree. exact Hr.
  - apply union_swap_agree. exact Hf.
Qed.

(** ** One merge, seen from the store *)

Lemma storedTx_upsertTransaction address tx txId m :
  is_Some (accountStates m !! address) ->
  id tx = Some txId ->
  storedTx address txId (exec (upsertTransaction address tx) m)
  = Some (mergeTx (storedTx address txId m) tx).
Proof.
  intros [a Ha] Hid. unfold exec.
  rewrite (upsertTransaction_present address tx m a Ha). simpl.
  unfold storedTx. simpl. rewrite lookup_insert_eq, Ha.
  unfold AccountStateManager.getTxById, AccountStateManager.storeTransaction. simpl.
  rewrite Hid. simpl. rewrite lookup_insert_eq. reflexivity.
Qed.

Lemma storedTx_account address txId m r :
  storedTx address txId m = Some r -> is_Some (accountStates m !! address).
Proof. unfold storedTx. destruct (accountStates m !! address); [eauto|discriminate]. Qed.

(** C2 (as amended). A stored terminal status is kept against every incoming
    numeric status that does not rank above it; in general the merged status
    is the larger of the two, so it never falls below the stored one. *)
Theorem terminal_status_never_lowered address txId tx stored s n m :
  id tx = Some txId ->
  storedTx address txId m = Some stored ->
  status stored = JNum s -> PROCESSED < s ->
  status tx = JNum n ->
  exists r, storedTx address txId (exec (upsertTransaction address tx) m) = Some r
    /\ status r = JNum (Z.max s n)
    /\ (n <= s -> status r = status stored).
Proof.
  intros Hid Hst Hs Hterm Hn.
  rewrite (storedTx_upsertTransaction address tx txId m)
    by eauto using storedTx_account.
  eexists. split; [reflexivity|].
  rewrite mergeTx_status, Hst. simpl. rewrite Hs, Hn.
  rewrite keptStatus_max by assumption. split; [reflexivity|].
  intros Hle. f_equal. lia.
Qed.

(** C3 (as amended). A stored status [PROCESSED] is not terminal: the merged
    record takes the incoming status, whatever it is (so an incoming
    "pending" replaces "processed"). *)
Theorem processed_takes_incoming_status address txId tx stored m :
  id tx = Some txId ->
  storedTx address txId m = Some stored ->
  status stored = JNum PROCESSED ->
  exists r, storedTx address txId (exec (upsertTransaction address tx) m) = Some r
    /\ status r = status tx.
Proof.
  intros Hid Hst Hs.
  rewrite (storedTx_upsertTransaction address tx txId m)
    by eauto using storedTx_account.
  eexists. split; [reflexivity|].
  rewrite mergeTx_status, Hst. simpl. rewrite Hs.
  apply keptStatus_not_terminal. unfold js_gt. simpl. apply Z.ltb_irrefl.
Qed.

(** C1 (as amended). Two updates for the same transaction id that agree on
    every property both carry (members of the receipt included) and whose
    statuses are numbers, equal or with a terminal one among them or in the
    store, leave the same account stores in either order. *)
Theorem upsert_order_irrelevant address txId u1 u2 n1 n2 m :
  id u1 = Some txId -> id u2 = Some txId ->
  map_agree (fields u1) (fields u2) ->
  receipts_agree (receipt u1) (receipt u2) ->
  status u1 = JNum n1 -> status u2 = JNum n2 ->
  n1 = n2 \/ PROCESSED < n1 \/ PROCESSED < n2
    \/ terminal (status_opt (storedTx address txId m)) ->
  let m12 := exec (upsertTransaction address u2) (exec (upsertTransaction address u1) m) in
  let m21 := exec (upsertTransaction address u1) (exec (upsertTransaction address u2) m) in
  accountStates m12 = accountStates m21
  /\ storedTx address txId m12 = storedTx address txId m21.
Proof.
  intros Hi1 Hi2 Hf Hr Hs1 Hs2 Hc m12 m21.
  assert (Hacc : accountStates m12 = accountStates m21).
  { subst m12 m21. unfold exec.
    destruct (accountStates m !! address) as [a|] eqn:Ha.
    - rewrite (upsertTransaction_present address u1 m a Ha).
      rewrite (upsertTransaction_present address u2 m a Ha). simpl.
      erewrite upsertTransaction_present by (simpl; apply lookup_insert_eq).
      erewrite (upsertTransaction_present address u1) by (simpl; apply lookup_insert_eq).
      simpl. rewrite !insert_insert_eq. f_equal.
      unfold AccountStateManager.storeTransaction, AccountStateManager.getTxById. simpl.
      rewrite Hi1, Hi2. simpl. rewrite !lookup_insert_eq, !insert_insert_eq.
      f_equal. f_equal.
      apply (mergeTx_swap _ u1 u2 txId n1 n2); try assumption.
      unfold storedTx, AccountStateManager.getTxById in Hc. rewrite Ha in Hc. exact Hc.
    - rewrite (upsertTransaction_absent address u1 m Ha).
      rewrite (upsertTransaction_absent address u2 m Ha). simpl.
      rewrite (upsertTransaction_absent address u1 m Ha).
      rewrite (upsertTransaction_absent address u2 m Ha). reflexivity. }
  split; [exact Hacc|]. unfold storedTx. rewrite Hacc. reflexivity.
Qed.

(** ** Annotating a transaction nobody stored *)

Lemma noteOnly_carriesOnlyNote note : carriesOnlyNote (noteOnly note).
Proof.
  repeat split. intros k Hk. simpl. apply lookup_singleton_ne. congruence.
Qed.

Lemma mergeTx_noteOnly base note :
  (forall r, base = Some r -> carriesOnlyNote r) ->
  mergeTx base (noteOnly note) = noteOnly note.
Proof.
  intros Hbase. destruct base as [r|].
  - destruct (Hbase r eq_refl) as (Hid & Hst & Hrc & Hf).
    unfold mergeTx, noteOnly, keptStatus. simpl. rewrite Hid, Hst, Hrc. simpl.
    f_equal. apply map_eq. intros k. rewrite lookup_union.
    destruct (decide (k = "note"%string)) as [->|Hk].
    + rewrite lookup_singleton_eq. destruct (fields r !! "note"%string); reflexivity.
    + rewrite lookup_singleton_ne by congruence. rewrite (Hf k Hk). reflexivity.
  - unfold mergeTx, noteOnly. simpl. f_equal.
Qed.

(** C9. For an id with no stored record, [updateTxNote] hands
    [upsertTransaction] the record of the note alone; what is merged, stored
    and sent to the window is that record, every property but [note] unset.
    Having no [id], it is filed under the key the missing id is read as, and
    [txId] still has no record of its own. *)
Theorem updateTxNote_unknown_id address txId note m a :
  accountStates m !! address = Some a ->
  AccountStateManager.getTxById (Some txId) a = None ->
  (forall r, AccountStateManager.getTxById None a = Some r -> carriesOnlyNote r) ->
  let m' := exec (updateTxNote address txId note) m in
  let ledger := <[ "undefined"%string := noteOnly note ]> (txs a) in
  updateTxNote address txId note m = upsertTransaction address (noteOnly note) m
  /\ carriesOnlyNote (noteOnly note)
  /\ ledgers m' !! address = Some ledger
  /\ sent m' = sent m ++ [T_M_UPDATE_TXS ledger address]
  /\ (txId <> "undefined"%string -> storedTx address txId m' = None).
Proof.
  intros Ha Hnone Hbase m' ledger.
  assert (Hsame : updateTxNote address txId note m
                  = upsertTransaction address (noteOnly note) m).
  { unfold updateTxNote. unfold_M. rewrite Ha, Hnone. simpl.
    rewrite insert_empty. reflexivity. }
  assert (Hm' : m' = mkManager (keychain m)
                       (<[address := {| state := state a; txs := ledger; rewards := rewards a |}]>
                          (accountStates m))
                       (unsubs m) (txStateStream m) (Some address)
                       (sent m ++ [T_M_UPDATE_TXS ledger address]) (logged m)).
  { subst m'. unfold exec. rewrite Hsame.
    rewrite (upsertTransaction_present address (noteOnly note) m a Ha). cbv zeta.
    change (id (noteOnly note)) with (@None string).
    rewrite (mergeTx_noteOnly _ note Hbase). reflexivity. }
  split; [exact Hsame|]. split; [apply noteOnly_carriesOnlyNote|].
  rewrite Hm'. unfold ledgers, storedTx. simpl.
  rewrite lookup_fmap, lookup_insert_eq. simpl.
  repeat split. intros Hne.
  unfold AccountStateManager.getTxById, ledger. simpl.
  rewrite lookup_insert_ne by congruence. exact Hnone.
Qed.

(** ** Submissions the remote answers without a transaction id *)

Lemma ledgers_insert_same address a a' m :
  accountStates m !! address = Some a -> txs a' = txs a ->
  txs <$> <[address := a']> (accountStates m) = ledgers m.
Proof.
  intros Ha Htx. unfold ledgers. rewrite fmap_insert, Htx.
  apply insert_id. rewrite lookup_fmap, Ha. reflexivity.
Qed.

Lemma updateAccountData_ledgers address d m :
  ledgers (exec (updateAccountData address d) m) = ledgers m.
Proof.
  unfold updateAccountData, updateAppStateAccount. unfold_M.
  destruct (accountStates m !! address) as [a|] eqn:Ha.
  - repeat first [rewrite Ha | rewrite lookup_insert_eq
                 | rewrite bool_decide_eq_true_2 by eauto | progress simpl].
    destruct (state a); simpl;
      apply (ledgers_insert_same address a); (exact Ha || reflexivity).
  - rewrite bool_decide_eq_false_2 by (intros [? ?]; discriminate). reflexivity.
Qed.

Lemma refreshAccountData_ledgers address followUp m :
  ledgers (exec (refreshAccountData address followUp) m) = ledgers m.
Proof.
  destruct followUp as [d|]; [|reflexivity].
  pose proof (updateAccountData_ledgers address d m) as Hl.
  unfold refreshAccountData, detached, exec, try_catch in *. simpl in *.
  destruct (updateAccountData address d m) as [[[]|e] m1]; exact Hl.
Qed.

Lemma refreshAccountData_returns address followUp m :
  result (refreshAccountData address followUp) m = Returned tt.
Proof.
  destruct followUp as [d|]; [|reflexivity].
  unfold refreshAccountData, detached, result, try_catch. simpl.
  destruct (updateAccountData address d m) as [[[]|e] m1]; reflexivity.
Qed.

Lemma publish_error_without_id response :
  has_tx_id response = false ->
  publish_error response = Some (default TxResponseError (submit_error response)).
Proof.
  intros Hid. unfold publish_error. rewrite Hid. simpl.
  rewrite orb_true_r. reflexivity.
Qed.

(** C7. When the response carries no [txstate.id], both publishing methods
    return an error and no transaction, and no account's ledger changes. *)
Theorem publish_without_transaction_id
    fee fullTx accountIndex response currentLayer followUp m :
  has_tx_id response = false ->
  let spawn := publishSelfSpawn fee accountIndex response currentLayer followUp in
  let spend := publishSpendTx fullTx accountIndex response currentLayer followUp in
  (exists e, result spawn m = Returned (mkPublishResult (Some e) None))
  /\ ledgers (exec spawn m) = ledgers m
  /\ (exists e, result spend m = Returned (mkPublishResult (Some e) None))
  /\ ledgers (exec spend m) = ledgers m.
Proof.
  intros Hid spawn spend.
  assert (Hspawn : (exists e, result spawn m = Returned (mkPublishResult (Some e) None))
                   /\ ledgers (exec spawn m) = ledgers m).
  { subst spawn. unfold publishSelfSpawn, theKeyPair, theProjectedCounter.
    rewrite (publish_error_without_id response Hid), Hid, andb_false_r.
    unfold result, exec. unfold_M.
    destruct (keychain m !! accountIndex) as [kp|]; [|simpl; eauto].
    destruct (accountStates m !! principalAddress 0 (publicKey kp)) as [a|];
      [|simpl; eauto].
    destruct (AccountStateManager.getState a) as [st|]; [|simpl; eauto].
    pose proof (refreshAccountData_ledgers (principalAddress 0 (publicKey kp)) followUp m) as Hl.
    pose proof (refreshAccountData_returns (principalAddress 0 (publicKey kp)) followUp m) as Hr.
    unfold result, exec in Hl, Hr.
    destruct (refreshAccountData _ followUp m) as [o m1]. simpl in *. subst o.
    simpl. eauto. }
  assert (Hspend : (exists e, result spend m = Returned (mkPublishResult (Some e) None))
                   /\ ledgers (exec spend m) = ledgers m).
  { subst spend. unfold publishSpendTx, theKeyPair, theProjectedCounter.
    rewrite (publish_error_without_id response Hid), Hid, andb_false_r.
    unfold result, exec. unfold_M.
    destruct (keychain m !! accountIndex) as [kp|]; [|simpl; eauto].
    destruct (accountStates m !! principalAddress 1 (publicKey kp)) as [a|];
      [|simpl; eauto].
    destruct (AccountStateManager.getState a) as [st|]; [|simpl; eauto].
    destruct (Bech32_parse (receiver fullTx)) as [dest|]; [|simpl; eauto].
    pose proof (refreshAccountData_ledgers (principalAddress 1 (publicKey kp)) followUp m) as Hl.
    pose proof (refreshAccountData_returns (principalAddress 1 (publicKey kp)) followUp m) as Hr.
    unfold result, exec in Hl, Hr.
    destruct (refreshAccountData _ followUp m) as [o m1]. simpl in *. subst o.
    simpl. eauto. }
  tauto.
Qed.

(** ** Callbacks for an account that is gone *)

Lemma updateAccountData_absent address d m :
  accountStates m !! address = None ->
  updateAccountData address d m = (Returned tt, m).
Proof.
  intros Hno. unfold updateAccountData. unfold_M. rewrite Hno.
  rewrite bool_decide_eq_false_2 by (intros [? ?]; discriminate). reflexivity.
Qed.

Lemma storeReward_absent publicKey reward m :
  accountStates m !! publicKey = None ->
  storeReward publicKey reward m = (Thrown TypeError, m).
Proof.
  intros Hno. unfold storeReward, storeReward_call. unfold_M. rewrite Hno. reflexivity.
Qed.

Lemma exec_setAccounts_nil m :
  exec (setAccounts []) m
  = mkManager [] ∅ ∅ (txStateStream m) (debounced m) (sent m) (logged m).
Proof. reflexivity. Qed.

(** C8, the code at the failing input. Once [setAccounts([])] has dropped
    every store, a transaction or an account snapshot that arrives is
    discarded by the guard, but a well-formed reward that arrives reaches
    [this.accountStates[publicKey].storeReward] with no guard before it and
    throws. *)
Theorem reward_for_removed_account_throws address tx d l t lr c m :
  let m' := exec (setAccounts []) m in
  let reward := Some (mkRewardOut (Some l) (Some t) (Some lr) (Some c)) in
  upsertTransaction address tx m' = (Returned tt, m')
  /\ updateAccountData address d m' = (Returned tt, m')
  /\ addReward address reward m' = (Thrown TypeError, m').
Proof.
  intros m' reward.
  assert (Hno : accountStates m' !! address = None).
  { subst m'. rewrite exec_setAccounts_nil. simpl. apply lookup_empty. }
  split; [apply upsertTransaction_absent; exact Hno|].
  split; [apply updateAccountData_absent; exact Hno|].
  subst reward. unfold addReward, parseReward. simpl.
  apply storeReward_absent. exact Hno.
Qed.

(** ** Replacing a key pair of the keychain *)

Lemma findIndex_app {A} (p : A -> bool) (l1 : list A) (y : A) (l2 : list A) :
  Forall (fun x => p x = false) l1 -> p y = true ->
  findIndex p (l1 ++ y :: l2) = Z.of_nat (length l1).
Proof.
  intros Hl1 Hy. induction Hl1 as [|x l Hx Hl IH]; simpl.
  - rewrite Hy. reflexivity.
  - rewrite Hx, IH. destruct (Z.ltb_spec (Z.of_nat (length l)) 0); lia.
Qed.

Lemma keychain_with_duplicate keypair pre x dup post :
  Forall (fun kp => String.eqb (publicKey kp) (publicKey keypair) = false) (pre ++ [x]) ->
  String.eqb (publicKey dup) (publicKey keypair) = true ->
  keychain_with keypair (pre ++ x :: dup :: post) = pre ++ post ++ [keypair].
Proof.
  intros Hpre Hdup. unfold keychain_with.
  replace (pre ++ x :: dup :: post) with ((pre ++ [x]) ++ dup :: post)
    by (rewrite <- app_assoc; reflexivity).
  rewrite (findIndex_app _ (pre ++ [x]) dup post Hpre Hdup).
  rewrite length_app. simpl.
  destruct (Z.ltb_spec (-1) (Z.of_nat (length pre + 1))); [|lia].
  unfold slice, slice_from. simpl.
  replace (Z.to_nat (Z.max 0 (Z.of_nat (length pre + 1) - 1) - 0)) with (length pre) by lia.
  replace (Z.to_nat (Z.of_nat (length pre + 1) + 1)) with (length (pre ++ [x]) + 1)%nat
    by (rewrite length_app; simpl; lia).
  change (Z.to_nat 0) with 0%nat. rewrite drop_0.
  assert (Htake : take (length pre) ((pre ++ [x]) ++ dup :: post) = pre).
  { rewrite <- app_assoc. apply take_app_length. }
  assert (Hdrop : drop (length (pre ++ [x]) + 1) ((pre ++ [x]) ++ dup :: post) = post).
  { rewrite drop_app_add' with (m := 1%nat) by reflexivity. reflexivity. }
  rewrite Htake, Hdrop, <- app_assoc. reflexivity.
Qed.

Lemma keychain_addAccount keypair m :
  keychain (exec (addAccount keypair) m) = keychain_with keypair (keychain m).
Proof.
  unfold addAccount, subscribeAccount, push_unsub, updateAppStateTxs,
    updateAppStateRewards, subscribeTransactions.
  unfold_M. simpl.
  repeat (rewrite lookup_insert_eq; simpl).
  destruct (bool_decide _); simpl; rewrite lookup_insert_eq; reflexivity.
Qed.

(** C10, what the code does instead. When the public key of the added pair
    already sits in the keychain at an index [idx >= 1], [addAccount]
    removes the matching entry and the entry at [idx - 1] with it: of
    [pre ++ x :: dup :: post] it keeps [pre] and [post], and appends the pair. *)
Theorem addAccount_drops_predecessor keypair pre x dup post m :
  keychain m = pre ++ x :: dup :: post ->
  Forall (fun kp => String.eqb (publicKey kp) (publicKey keypair) = false) (pre ++ [x]) ->
  String.eqb (publicKey dup) (publicKey keypair) = true ->
  keychain (exec (addAccount keypair) m) = pre ++ post ++ [keypair].
Proof.
  intros Hk Hpre Hdup. rewrite keychain_addAccount, Hk.
  apply keychain_with_duplicate; assumption.
Qed.

End MergeProperties.

(** ** The walk over the pages *)

Section WalkProperties.
Context `{Imports}.
Context {Svc A : Type}.
Variable request : Svc -> Bech32Address -> Z -> MeshReply A * Svc.
Variable accountId : Bech32Address.

Lemma foldl_deliver (page : list (AccountMeshData A)) (delivered : list A) :
  foldl (fun w tx => deliver (meshTransaction tx) w) delivered page
  = delivered ++ map meshTransaction page.
Proof.
  revert delivered. induction page as [|x page IH]; intros delivered; simpl.
  - rewrite app_nil_r. reflexivity.
  - rewrite IH. unfold deliver. rewrite <- app_assoc. reflexivity.
Qed.

Lemma recording_step (s : Svc) (asked : list Z) (offset : Z) :
  recording request (s, asked) accountId offset
  = (fst (request s accountId offset), (snd (request s accountId offset), asked ++ [offset])).
Proof. unfold recording. simpl. destruct (request s accountId offset). reflexivity. Qed.

(** From the retry numbered [5 - left] on: the remaining attempts fail, the
    last one reporting no page beyond this one, and the walk ends there. *)
Lemma exhausted_from (offset : Z) (s : Svc) (left : nat) :
  forall (done : nat) (asked : list Z) (delivered : list A) (fuel : nat),
  (done + left = 5)%nat ->
  (forall k, (k <= 5)%nat -> is_Some (error (attempt request accountId offset k s))) ->
  totalResults (attempt request accountId offset 5 s) <= offset + GRPC_QUERY_BATCH_SIZE ->
  (left < fuel)%nat ->
  retrieveHistoricTxData (recording request) fuel accountId offset deliver (Z.of_nat done)
    (after_attempts request accountId offset done s, asked) delivered
  = Some ((after_attempts request accountId offset 6 s,
           asked ++ replicate (S left) offset),
          delivered ++ map meshTransaction (data (attempt request accountId offset 5 s))).
Proof.
  induction left as [|left IH]; intros done asked delivered fuel Hsum Hfail Htotal Hfuel;
    (destruct fuel as [|fuel]; [lia|]); simpl; rewrite recording_step.
  - assert (done = 5)%nat as -> by lia.
    change (Z.of_nat 5 <? 5) with false. rewrite andb_false_r.
    change (fst (request (after_attempts request accountId offset 5 s) accountId offset))
      with (attempt request accountId offset 5 s).
    destruct (Z.ltb_spec (offset + GRPC_QUERY_BATCH_SIZE)
                (totalResults (attempt request accountId offset 5 s))); [lia|].
    rewrite foldl_deliver. reflexivity.
  - change (fst (request (after_attempts request accountId offset done s) accountId offset))
      with (attempt request accountId offset done s).
    rewrite bool_decide_eq_true_2 by (apply Hfail; lia).
    destruct (Z.ltb_spec (Z.of_nat done) 5); [|lia]. simpl.
    change (snd (request (after_attempts request accountId offset done s) accountId offset))
      with (after_attempts request accountId offset (S done) s).
    replace (Z.of_nat done + 1) with (Z.of_nat (S done)) by lia.
    rewrite (IH (S done)) by (assumption || lia).
    rewrite <- app_assoc. reflexivity.
Qed.

(** C5 (as amended). The first attempt and the five retries at [offset] all
    fail, and the last failed answer reports no result beyond this page:
    the walk makes these six requests and no other, and what had been
    delivered is still there, followed by whatever entries that last answer
    carried. *)
Theorem walk_ends_when_retries_are_exhausted
    (offset : Z) (s : Svc) (asked : list Z) (delivered : list A) (fuel : nat) :
  (forall k, (k <= 5)%nat -> is_Some (error (attempt request accountId offset k s))) ->
  totalResults (attempt request accountId offset 5 s) <= offset + GRPC_QUERY_BATCH_SIZE ->
  (6 <= fuel)%nat ->
  retrieveHistoricTxData (recording request) fuel accountId offset deliver 0 (s, asked) delivered
  = Some ((after_attempts request accountId offset 6 s, asked ++ replicate 6 offset),
          delivered ++ map meshTransaction (data (attempt request accountId offset 5 s))).
Proof.
  intros Hfail Htotal Hfuel.
  apply (exhausted_from offset s 5 0 asked delivered fuel); (assumption || lia).
Qed.

End WalkProperties.

(** C4. With 250 results and pages of 100, the walk asks for the pages at
    offsets 0, 100 and 200, these three and in this order, and hands all 250
    records to the handler. When the query at offset 100 fails twice, that
    page is asked for three times in a row (the two failures and the
    success), the other two once, and the same 250 records are handed over. *)
Theorem walk_of_250_records `{Imports} {A : Type}
    (record : nat -> A) (failure : MeshReply A) (accountId : Bech32Address) (fuel : nat) :
  GRPC_QUERY_BATCH_SIZE = 100 ->
  is_Some (error failure) ->
  (5 <= fuel)%nat ->
  retrieveHistoricTxData (recording (flaky record failure)) fuel accountId 0 deliver 0
    (0%nat, []) []
  = Some ((0%nat, [0; 100; 200]), map record (seq 0 250))
  /\ retrieveHistoricTxData (recording (flaky record failure)) fuel accountId 0 deliver 0
       (2%nat, []) []
     = Some ((0%nat, [0; 100; 100; 100; 200]), map record (seq 0 250)).
Proof.
  intros Hsize [e He] Hfuel.
  do 5 (destruct fuel as [|fuel]; [lia|]).
  destruct failure as [fdata ftotal ferror]. simpl in He. subst ferror.
  destruct H. simpl in Hsize. subst.
  split; vm_compute; reflexivity.
Qed.

(** ** After the account set was emptied *)

Section Silence.
Context `{Imports}.

Lemma silent_refl m : silent m m.
Proof. split; reflexivity. Qed.

Lemma upsertTransaction_silent address tx m :
  accountStates m = ∅ -> silent m (exec (upsertTransaction address tx) m).
Proof.
  intros He. unfold exec. rewrite upsertTransaction_absent; [apply silent_refl|].
  rewrite He. apply lookup_empty.
Qed.

Lemma resume_silent address m :
  accountStates m = ∅ -> silent m (exec (upsertTransaction_resume address) m).
Proof.
  intros He. unfold upsertTransaction_resume, storeTx_settled, updateAppStateTxs,
    subscribeTransactions. unfold_M.
  rewrite He, lookup_empty. simpl. split; reflexivity.
Qed.

Lemma storeReward_settled_silent address m :
  accountStates m = ∅ -> silent m (exec (storeReward_settled address) m).
Proof.
  intros He. unfold storeReward_settled, updateAppStateRewards. unfold_M.
  rewrite He, lookup_empty. simpl. split; reflexivity.
Qed.

Lemma subscribeTransactions_body_silent publicKey m :
  accountStates m = ∅ ->
  silent m (exec (subscribeTransactions_body publicKey) (set_debounced None m)).
Proof.
  intros He. unfold subscribeTransactions_body. unfold_M. simpl.
  rewrite He, lookup_empty. simpl. split; reflexivity.
Qed.

Lemma fire_silent e m :
  accountStates m = ∅ -> silent m (exec (fire e) m).
Proof.
  intros He.
  assert (Hno : forall address, accountStates m !! address = None)
    by (intros; rewrite He; apply lookup_empty).
  destruct e as [pk tx|address tx|address txRes|address d|address reward|address|address|];
    simpl.
  - unfold handleNewTx.
    destruct (transaction tx), (transactionState tx) as [ts|]; try apply silent_refl.
    destruct (ts_state ts =? 0); [apply silent_refl|].
    destruct (toTx _ _); [apply upsertTransaction_silent; exact He|apply silent_refl].
  - unfold upsertTransactionFromMesh.
    destruct tx as [mtx|]; [|apply silent_refl].
    destruct (mesh_transaction mtx) as [t|], (layerId mtx) as [l|]; try apply silent_refl.
    destruct (negb (tx_id_present t)); [apply silent_refl|].
    destruct (toTx t JNull); [apply upsertTransaction_silent; exact He|apply silent_refl].
  - unfold watchTransactionsByAddress_callback.
    destruct (res_tx txRes); [|apply silent_refl].
    destruct (toTx _ _); [apply upsertTransaction_silent; exact He|apply silent_refl].
  - unfold exec. rewrite updateAccountData_absent by apply Hno. apply silent_refl.
  - unfold addReward. destruct reward as [r|]; [|apply silent_refl].
    destruct (parseReward r); [|apply silent_refl].
    unfold exec. rewrite storeReward_absent by apply Hno. apply silent_refl.
  - apply resume_silent. exact He.
  - apply storeReward_settled_silent. exact He.
  - unfold exec. destruct (debounced m) as [pk|]; [|apply silent_refl].
    apply subscribeTransactions_body_silent. exact He.
Qed.

Lemma run_silent es m :
  accountStates m = ∅ -> silent m (run es m).
Proof.
  revert m. induction es as [|e es IH]; intros m He; [apply silent_refl|].
  destruct (fire_silent e m He) as [Ha Hs].
  destruct (IH (exec (fire e) m)) as [Ha' Hs']; [rewrite Ha; exact He|].
  unfold run in *. simpl. split; congruence.
Qed.

Lemma page_is_a_run address (page : list (AccountMeshData (option MeshTransaction__Output))) m :
  foldl (fun w tx => exec (upsertTransactionFromMesh address (meshTransaction tx)) w) m page
  = run (map (MeshTxDelivered address) (map meshTransaction page)) m.
Proof.
  revert m. induction page as [|x page IH]; intros m; [reflexivity|].
  simpl. rewrite IH. reflexivity.
Qed.

(** The entries a walk hands to its handler arrive as so many deliveries:
    the backfill [subscribeAccount] started is, for the manager, a run of
    [MeshTxDelivered]. *)
Lemma backfill_is_a_run {Svc : Type}
    (request : Svc -> Bech32Address -> Z -> MeshReply (option MeshTransaction__Output) * Svc)
    (address : Bech32Address) (fuel : nat) :
  forall offset retries s m s' m',
  retrieveHistoricTxData request fuel address offset
    (fun tx m => exec (upsertTransactionFromMesh address tx) m) retries s m = Some (s', m') ->
  exists delivered, m' = run (map (MeshTxDelivered address) delivered) m.
Proof.
  induction fuel as [|fuel IH]; intros offset retries s m s' m' Hwalk; [discriminate|].
  simpl in Hwalk. destruct (request s address offset) as [r s1].
  destruct (bool_decide (is_Some (error r)) && (retries <? 5)).
  - eapply IH. exact Hwalk.
  - rewrite page_is_a_run in Hwalk.
    destruct (offset + GRPC_QUERY_BATCH_SIZE <? totalResults r).
    + destruct (IH _ _ _ _ _ _ Hwalk) as [rest Hrest].
      exists (map meshTransaction (data r) ++ rest).
      rewrite Hrest. unfold run. rewrite map_app, foldl_app. reflexivity.
    + inversion Hwalk; subst. eexists. reflexivity.
Qed.

(** C6. [addAccount(keypair)], then [setAccounts([])]: whatever callbacks run
    afterwards (pushes of the feeds, pages and answers of the queries in
    flight, promises of earlier store calls settling, the debounce timer),
    in whatever order, nothing more is sent to the window, so no
    notification about the removed account either. *)
Theorem no_notification_once_accounts_are_cleared keypair m0 es :
  let m := exec (setAccounts []) (exec (addAccount keypair) m0) in
  sent (run es m) = sent m
  /\ Forall (fun n => ipc_account n <> principalAddress 0 (publicKey keypair))
       (drop (length (sent m)) (sent (run es m))).
Proof.
  intros m.
  assert (He : accountStates m = ∅) by (subst m; rewrite exec_setAccounts_nil; reflexivity).
  destruct (run_silent es m He) as [_ Hs].
  split; [exact Hs|]. rewrite Hs, drop_all. constructor.
Qed.

End Silence.

Section ClosedExamples.
Local Existing Instance sampleImports.

(** C3, counterexample. Stored "processed", incoming "pending": the record
    ends "pending", not "processed". *)
Lemma processed_falls_back_to_pending :
  status <$> storedTx "sm1qacct" "aa"
     (exec (upsertTransaction "sm1qacct" (statusUpdate TxState.PENDING))
        (managerWith TxState.PROCESSED))
  = Some (JNum TxState.PENDING)
  /\ JNum TxState.PENDING <> JNum TxState.PROCESSED.
Proof. split; [vm_compute; reflexivity | discriminate]. Qed.

(** C2, counterexample. Stored "success" (terminal), incoming "failure": the
    status field changes. *)
Lemma success_is_replaced_by_failure :
  status <$> storedTx "sm1qacct" "aa" (managerWith TxState.SUCCESS)
  = Some (JNum TxState.SUCCESS)
  /\ status <$> storedTx "sm1qacct" "aa"
       (exec (upsertTransaction "sm1qacct" (statusUpdate TxState.FAILURE))
          (managerWith TxState.SUCCESS))
     = Some (JNum TxState.FAILURE)
  /\ JNum TxState.FAILURE <> JNum TxState.SUCCESS.
Proof. repeat split; try (vm_compute; reflexivity); discriminate. Qed.

(** C1, counterexample. "pending" then "processed" ends "processed";
    "processed" then "pending" ends "pending". *)
Lemma pending_and_processed_do_not_commute :
  storedTx "sm1qacct" "aa"
    (exec (upsertTransaction "sm1qacct" (statusUpdate TxState.PROCESSED))
       (exec (upsertTransaction "sm1qacct" (statusUpdate TxState.PENDING)) managerFresh))
  = Some (statusUpdate TxState.PROCESSED)
  /\ storedTx "sm1qacct" "aa"
       (exec (upsertTransaction "sm1qacct" (statusUpdate TxState.PENDING))
          (exec (upsertTransaction "sm1qacct" (statusUpdate TxState.PROCESSED)) managerFresh))
     = Some (statusUpdate TxState.PENDING)
  /\ statusUpdate TxState.PROCESSED <> statusUpdate TxState.PENDING.
Proof. repeat split; try (vm_compute; reflexivity); discriminate. Qed.

(** C10, at a concrete keychain. It holds A, B and C; adding a key pair with
    B's public key leaves C and the new pair: A, the entry before B, is gone
    as well. *)
Lemma addAccount_drops_predecessor_witness :
  let A := mkKeyPair "pkA" "skA" in
  let B := mkKeyPair "pkB" "skB" in
  let C := mkKeyPair "pkC" "skC" in
  let B' := mkKeyPair "pkB" "skB2" in
  keychain (exec (addAccount B') (set_keychain [A; B; C] emptyManager)) = [C; B']
  /\ [C; B'] <> [A; C; B'].
Proof.
  split; [|discriminate].
  apply (addAccount_drops_predecessor (mkKeyPair "pkB" "skB2") []
           (mkKeyPair "pkA" "skA") (mkKeyPair "pkB" "skB") [mkKeyPair "pkC" "skC"]
           (set_keychain [mkKeyPair "pkA" "skA"; mkKeyPair "pkB" "skB"; mkKeyPair "pkC" "skC"]
              emptyManager)).
  - reflexivity.
  - repeat constructor.
  - reflexivity.
Defined.

(** C5, counterexample. Every query fails, each answer still reporting 250
    results: after the six failed requests at offset 100 the walk goes on to
    offset 200. *)
Lemma walk_goes_on_after_exhausted_retries :
  retrieveHistoricTxData (recording stubborn) 12 "sm1qacct" 100 deliver 0 (tt, []) [7%nat]
  = Some ((tt, replicate 6 100 ++ replicate 6 200), [7%nat])
  /\ In 200 (replicate 6 100 ++ replicate 6 200).
Proof. split; [vm_compute; reflexivity | simpl; tauto]. Qed.

(** C4, at a concrete ledger: the records are the numbers 0 to 249. *)
Lemma walk_of_250_records_witness :
  let failure := mkMeshReply [] 0 (Some (ServiceError "unavailable")) in
  retrieveHistoricTxData (recording (flaky (fun i => i) failure)) 5 "sm1qacct" 0 deliver 0
    (0%nat, []) []
  = Some ((0%nat, [0; 100; 200]), map (fun i => i) (seq 0 250))
  /\ retrieveHistoricTxData (recording (flaky (fun i => i) failure)) 5 "sm1qacct" 0 deliver 0
       (2%nat, []) []
     = Some ((0%nat, [0; 100; 100; 100; 200]), map (fun i => i) (seq 0 250)).
Proof.
  exact (walk_of_250_records (fun i => i)
           (mkMeshReply [] 0 (Some (ServiceError "unavailable"))) "sm1qacct" 5
           eq_refl (ex_intro _ _ eq_refl) (le_n 5)).
Defined.

(** C1, at a concrete pair: "success" with no other property, and "pending"
    with a layer, for a transaction not stored yet. *)
Lemma upsert_order_irrelevant_witness :
  let u1 := statusUpdate TxState.SUCCESS in
  let u2 := mkTx (Some "aa"%string) (JNum TxState.PENDING) None
              {[ "layer"%string := VNum 7 ]} in
  let m12 := exec (upsertTransaction "sm1qacct" u2)
               (exec (upsertTransaction "sm1qacct" u1) managerFresh) in
  let m21 := exec (upsertTransaction "sm1qacct" u1)
               (exec (upsertTransaction "sm1qacct" u2) managerFresh) in
  accountStates m12 = accountStates m21
  /\ storedTx "sm1qacct" "aa" m12 = storedTx "sm1qacct" "aa" m21.
Proof.
  exact (upsert_order_irrelevant "sm1qacct" "aa"
           (statusUpdate TxState.SUCCESS)
           (mkTx (Some "aa"%string) (JNum TxState.PENDING) None {[ "layer"%string := VNum 7 ]})
           TxState.SUCCESS TxState.PENDING managerFresh
           eq_refl eq_refl (map_agree_empty_l _) I eq_refl eq_refl
           (or_intror (or_introl eq_refl))).
Defined.

(** C2, at a concrete store: "success" stored, "pending" incoming. *)
Lemma terminal_status_never_lowered_witness :
  exists r,
    storedTx "sm1qacct" "aa"
      (exec (upsertTransaction "sm1qacct" (statusUpdate TxState.PENDING))
         (managerWith TxState.SUCCESS)) = Some r
    /\ status r = JNum (Z.max TxState.SUCCESS TxState.PENDING)
    /\ (TxState.PENDING <= TxState.SUCCESS ->
        status r = status (statusUpdate TxState.SUCCESS)).
Proof.
  apply (terminal_status_never_lowered "sm1qacct" "aa" (statusUpdate TxState.PENDING)
           (statusUpdate TxState.SUCCESS) TxState.SUCCESS TxState.PENDING
           (managerWith TxState.SUCCESS));
    reflexivity.
Defined.

(** C3, at a concrete store: "processed" stored, "pending" incoming. *)
Lemma processed_takes_incoming_status_witness :
  exists r,
    storedTx "sm1qacct" "aa"
      (exec (upsertTransaction "sm1qacct" (statusUpdate TxState.PENDING))
         (managerWith TxState.PROCESSED)) = Some r
    /\ status r = status (statusUpdate TxState.PENDING).
Proof.
  apply (processed_takes_incoming_status "sm1qacct" "aa" (statusUpdate TxState.PENDING)
           (statusUpdate TxState.PROCESSED) (managerWith TxState.PROCESSED));
    reflexivity.
Defined.

(** C5, at a concrete service: every query fails and reports no result. *)
Lemma walk_ends_when_retries_are_exhausted_witness :
  retrieveHistoricTxData (recording unavailable) 6 "sm1qacct" 100 deliver 0
    (tt, [0]) [1%nat; 2%nat; 3%nat]
  = Some ((after_attempts unavailable "sm1qacct" 100 6 tt, [0] ++ replicate 6 100),
          [1%nat; 2%nat; 3%nat]
          ++ map meshTransaction (data (attempt unavailable "sm1qacct" 100 5 tt))).
Proof.
  apply (walk_ends_when_retries_are_exhausted unavailable "sm1qacct" 100 tt [0]
           [1%nat; 2%nat; 3%nat] 6).
  - intros k _. eexists. reflexivity.
  - vm_compute. discriminate.
  - lia.
Defined.

(** C7, at a concrete submission: the answer has a state and no id. *)
Lemma publish_without_transaction_id_witness :
  let response := mkSubmit None (Some (mkTxStateOut None 4)) in
  let spawn := publishSelfSpawn 1 0%nat response 77 None in
  let spend := publishSpendTx (mkSendRequest "sm1qdest" 10 1 None) 0%nat response 77 None in
  (exists e, result spawn managerReady = Returned (mkPublishResult (Some e) None))
  /\ ledgers (exec spawn managerReady) = ledgers managerReady
  /\ (exists e, result spend managerReady = Returned (mkPublishResult (Some e) None))
  /\ ledgers (exec spend managerReady) = ledgers managerReady.
Proof.
  exact (publish_without_transaction_id 1 (mkSendRequest "sm1qdest" 10 1 None) 0%nat
           (mkSubmit None (Some (mkTxStateOut None 4))) 77 None managerReady eq_refl).
Defined.

(** C9, at a concrete store: the account tracks no transaction at all. *)
Lemma updateTxNote_unknown_id_witness :
  let m' := exec (updateTxNote "sm1qacct" "bb" "rent") managerFresh in
  let ledger := <[ "undefined"%string := noteOnly "rent" ]> (txs emptyAccount) in
  updateTxNote "sm1qacct" "bb" "rent" managerFresh
  = upsertTransaction "sm1qacct" (noteOnly "rent") managerFresh
  /\ carriesOnlyNote (noteOnly "rent")
  /\ ledgers m' !! "sm1qacct"%string = Some ledger
  /\ sent m' = sent managerFresh ++ [T_M_UPDATE_TXS ledger "sm1qacct"]
  /\ ("bb"%string <> "undefined"%string -> storedTx "sm1qacct" "bb" m' = None).
Proof.
  apply (updateTxNote_unknown_id "sm1qacct" "bb" "rent" managerFresh emptyAccount).
  - reflexivity.
  - reflexivity.
  - intros r Hr. vm_compute in Hr. discriminate Hr.
Defined.

End ClosedExamples.

(** * Further properties of the manager *)

Section StoreProperties.
Context `{Imports}.

Lemma keptStatus_same s : keptStatus s s = s.
Proof. unfold keptStatus. destruct (_ && _); reflexivity. Qed.

Lemma union_absorb (a b : gmap string value) : a ∪ (a ∪ b) = a ∪ b.
Proof. rewrite (assoc_L (∪)), (idemp_L (∪)). reflexivity. Qed.

Lemma mergeTx_twice originalTx tx txId :
  id tx = Some txId ->
  mergeTx (Some (mergeTx originalTx tx)) tx = mergeTx originalTx tx.
Proof.
  intros Hid. unfold mergeTx. simpl. rewrite Hid. f_equal.
  - fold (keptStatus (status_opt originalTx) (status tx)).
    set (s := keptStatus (status_opt originalTx) (status tx)).
    fold (keptStatus s (status tx)). subst s.
    unfold keptStatus.
    destruct (js_gt (status_opt originalTx) (JNum PROCESSED)
              && js_gt (status_opt originalTx) (status tx)) eqn:E.
    + rewrite E. reflexivity.
    + fold (keptStatus (status tx) (status tx)). apply keptStatus_same.
  - destruct (receipt tx) as [r|]; simpl; [|reflexivity].
    f_equal. apply union_absorb.
  - apply union_absorb.
Qed.

(** X1. One [upsertTransaction] touches one record of one ledger: the other
    accounts, the other records of the account, its snapshot and rewards,
    the keychain and the cancel table are as before. *)
Theorem upsertTransaction_frame address txId tx m :
  id tx = Some txId ->
  let m' := exec (upsertTransaction address tx) m in
  (forall other, other <> address -> accountStates m' !! other = accountStates m !! other)
  /\ (forall k, k <> txId -> storedTx address k m' = storedTx address k m)
  /\ state <$> (accountStates m' !! address) = state <$> (accountStates m !! address)
  /\ rewards <$> (accountStates m' !! address) = rewards <$> (accountStates m !! address)
  /\ keychain m' = keychain m
  /\ unsubs m' = unsubs m
  /\ txStateStream m' = txStateStream m.
Proof.
  intros Hid m'. subst m'. unfold exec.
  destruct (accountStates m !! address) as [a|] eqn:Ha.
  - rewrite (upsertTransaction_present address tx m a Ha). simpl.
    repeat split.
    + intros other Hne. apply lookup_insert_ne. congruence.
    + intros k Hk. unfold storedTx. simpl. rewrite lookup_insert_eq, Ha.
      unfold AccountStateManager.getTxById. simpl. rewrite Hid. simpl.
      apply lookup_insert_ne. congruence.
    + rewrite lookup_insert_eq. reflexivity.
    + rewrite lookup_insert_eq. reflexivity.
  - rewrite (upsertTransaction_absent address tx m Ha). simpl.
    rewrite Ha. repeat split.
Qed.

(** X2. Delivering the same update a second time changes no store: the
    record it leaves is the one the first delivery left. *)
Theorem upsertTransaction_twice address txId tx m :
  id tx = Some txId ->
  accountStates (exec (upsertTransaction address tx) (exec (upsertTransaction address tx) m))
  = accountStates (exec (upsertTransaction address tx) m).
Proof.
  intros Hid. unfold exec.
  destruct (accountStates m !! address) as [a|] eqn:Ha.
  - rewrite (upsertTransaction_present address tx m a Ha). simpl.
    erewrite upsertTransaction_present by (simpl; apply lookup_insert_eq). simpl.
    rewrite insert_insert_eq. f_equal.
    unfold AccountStateManager.storeTransaction, AccountStateManager.getTxById. simpl.
    rewrite Hid. simpl. rewrite lookup_insert_eq, insert_insert_eq.
    rewrite (mergeTx_twice _ tx txId Hid). reflexivity.
  - rewrite (upsertTransaction_absent address tx m Ha). simpl.
    rewrite (upsertTransaction_absent address tx m Ha). reflexivity.
Qed.

(** X3. Receipts add up. After a merge the stored receipt still has every
    member it had; a member the incoming receipt carries takes the incoming
    value, whatever it is ([null] included); an update without a receipt
    leaves the stored receipt as it was. *)
Theorem upsertTransaction_receipt address txId tx stored old m :
  id tx = Some txId ->
  storedTx address txId m = Some stored ->
  receipt stored = Some old ->
  exists r merged,
    storedTx address txId (exec (upsertTransaction address tx) m) = Some r
    /\ receipt r = Some merged
    /\ (forall k, is_Some (old !! k) -> is_Some (merged !! k))
    /\ (forall incoming k v,
          receipt tx = Some incoming -> incoming !! k = Some v -> merged !! k = Some v)
    /\ (forall incoming k,
          receipt tx = Some incoming -> incoming !! k = None -> merged !! k = old !! k)
    /\ (receipt tx = None -> merged = old).
Proof.
  intros Hid Hst Hold.
  rewrite (storedTx_upsertTransaction address tx txId m)
    by eauto using storedTx_account.
  rewrite Hst. unfold mergeTx. simpl. rewrite Hold. simpl.
  destruct (receipt tx) as [inc|] eqn:Hinc.
  - eexists _, (inc ∪ old). split; [reflexivity|]. split; [reflexivity|].
    repeat split.
    + intros k [v Hv]. rewrite lookup_union.
      destruct (inc !! k); rewrite Hv; simpl; eauto.
    + intros incoming k v Heq Hk. inversion Heq; subst.
      apply lookup_union_Some_l. exact Hk.
    + intros incoming k Heq Hk. inversion Heq; subst.
      rewrite lookup_union_r by exact Hk. reflexivity.
    + discriminate.
  - eexists _, old. split; [reflexivity|]. split; [reflexivity|].
    repeat split; try discriminate. intros k Hk. exact Hk.
Qed.

(** X4. For a stored transaction [updateTxNote] changes the note and nothing
    else: status, receipt and every other property of the record stay, and
    the window is told once. *)
Theorem updateTxNote_changes_only_the_note address txId note r m a :
  accountStates m !! address = Some a ->
  AccountStateManager.getTxById (Some txId) a = Some r ->
  id r = Some txId ->
  let m' := exec (updateTxNote address txId note) m in
  result (updateTxNote address txId note) m = Returned tt
  /\ storedTx address txId m' = Some (withNote note r)
  /\ ledgers m' !! address = Some (<[txId := withNote note r]> (txs a))
  /\ sent m' = sent m ++ [T_M_UPDATE_TXS (<[txId := withNote note r]> (txs a)) address].
Proof.
  intros Ha Hr Hid m'.
  assert (Hrun : updateTxNote address txId note m
                 = upsertTransaction address (withNote note r) m).
  { unfold updateTxNote. unfold_M. rewrite Ha, Hr. reflexivity. }
  assert (Hmerge : mergeTx (Some r) (withNote note r) = withNote note r).
  { unfold mergeTx, withNote. simpl. rewrite Hid. f_equal.
    - fold (keptStatus (status r) (status r)). apply keptStatus_same.
    - destruct (receipt r) as [rc|]; simpl; [|reflexivity].
      f_equal. apply (idemp_L (∪)).
    - apply map_eq. intros k. rewrite lookup_union.
      destruct (decide (k = "note"%string)) as [->|Hk].
      + rewrite lookup_insert_eq. destruct (fields r !! _); reflexivity.
      + rewrite lookup_insert_ne by congruence.
        destruct (fields r !! k); reflexivity. }
  subst m'. unfold result, exec. rewrite Hrun.
  rewrite (upsertTransaction_present address (withNote note r) m a Ha). cbv zeta.
  change (id (withNote note r)) with (id r). rewrite Hid, Hr, Hmerge.
  unfold AccountStateManager.storeTransaction. simpl. rewrite Hid. simpl.
  unfold storedTx, ledgers, AccountStateManager.getTxById. simpl.
  rewrite lookup_fmap, !lookup_insert_eq. simpl. rewrite lookup_insert_eq.
  repeat split.
Qed.

(** X5. Reads of a store that are not guarded: for an account that has no
    store, [updateTxNote] and the three [updateAppState...] methods throw a
    [TypeError], sending nothing and changing nothing. *)
Theorem unguarded_reads_throw address txId note m :
  accountStates m !! address = None ->
  updateTxNote address txId note m = (Thrown TypeError, m)
  /\ updateAppStateAccount address m = (Thrown TypeError, m)
  /\ updateAppStateTxs address m = (Thrown TypeError, m)
  /\ updateAppStateRewards address m = (Thrown TypeError, m).
Proof.
  intros Hno.
  unfold updateTxNote, updateAppStateAccount, updateAppStateTxs, updateAppStateRewards.
  unfold_M. rewrite Hno. repeat split.
Qed.

End StoreProperties.

Section CallbackProperties.
Context `{Imports}.

Lemma updateAccountData_present address d m a :
  accountStates m !! address = Some a ->
  let bal := mkBalance (snapshot_of (stateCurrent d)) (snapshot_of (stateProjected d)) in
  updateAccountData address d m =
    (Returned tt,
     mkManager (keychain m)
       (<[address := AccountStateManager.storeState bal a]> (accountStates m))
       (unsubs m) (txStateStream m) (debounced m)
       (sent m ++ [T_M_UPDATE_ACCOUNT bal address]) (logged m)).
Proof.
  intros Ha bal. unfold updateAccountData, updateAppStateAccount. unfold_M.
  repeat first [rewrite Ha | rewrite lookup_insert_eq
               | rewrite bool_decide_eq_true_2 by eauto | progress simpl].
  reflexivity.
Qed.

Lemma storeReward_present publicKey reward m a :
  accountStates m !! publicKey = Some a ->
  storeReward publicKey reward m =
    (Returned tt,
     mkManager (keychain m)
       (<[publicKey := AccountStateManager.storeReward reward a]> (accountStates m))
       (unsubs m) (txStateStream m) (debounced m)
       (sent m ++ [T_M_UPDATE_REWARDS (rewards a ++ [reward]) publicKey]) (logged m)).
Proof.
  intros Ha. unfold storeReward, storeReward_call, storeReward_settled,
    updateAppStateRewards. unfold_M.
  repeat first [rewrite Ha | rewrite lookup_insert_eq | progress simpl].
  reflexivity.
Qed.

(** X6. Pushes that lack what the handlers need are dropped without a trace:
    a mesh push that is [null], has no transaction, no layer id or a
    transaction without id, and a state push without transaction, without
    state or with state 0, leave the manager as it is. *)
Theorem malformed_pushes_are_dropped address m :
  upsertTransactionFromMesh address None m = (Returned tt, m)
  /\ (forall l, upsertTransactionFromMesh address (Some {| mesh_transaction := None; layerId := l |}) m
                = (Returned tt, m))
  /\ (forall t, upsertTransactionFromMesh address (Some {| mesh_transaction := t; layerId := None |}) m
                = (Returned tt, m))
  /\ (forall t l, tx_id_present t = false ->
        upsertTransactionFromMesh address (Some {| mesh_transaction := Some t; layerId := Some l |}) m
        = (Returned tt, m))
  /\ (forall ts, handleNewTx address {| transaction := None; transactionState := ts |} m = (Returned tt, m))
  /\ (forall t, handleNewTx address {| transaction := t; transactionState := None |} m = (Returned tt, m))
  /\ (forall t i, handleNewTx address {| transaction := t; transactionState := Some (mkTxStateOut i 0) |} m
                  = (Returned tt, m)).
Proof.
  repeat split.
  - intros t. unfold upsertTransactionFromMesh. simpl. destruct t; reflexivity.
  - intros t l Hid. unfold upsertTransactionFromMesh. simpl. rewrite Hid. reflexivity.
  - intros t. unfold handleNewTx. simpl. destruct t; reflexivity.
  - intros t i. unfold handleNewTx. simpl. destruct t; reflexivity.
Qed.

(** X7. A mesh push records its layer only when the layer number is not 0:
    with a number other than 0 the stored record takes it, with 0 the layer
    is the one [toTx] gave or, failing that, the one already stored. *)
Theorem mesh_push_layer address t l newTxData txId m :
  is_Some (accountStates m !! address) ->
  tx_id_present t = true ->
  toTx t JNull = Some newTxData ->
  id newTxData = Some txId ->
  let m' := exec (upsertTransactionFromMesh address
                    (Some {| mesh_transaction := Some t; layerId := Some l |})) m in
  exists r, storedTx address txId m' = Some r
    /\ (number l <> 0 -> fields r !! "layer"%string = Some (VNum (number l)))
    /\ (number l = 0 ->
        fields r !! "layer"%string
        = (fields newTxData ∪ from_option fields ∅ (storedTx address txId m))
            !! "layer"%string).
Proof.
  intros Hacc Hpresent HtoTx Hid m'. subst m'.
  unfold upsertTransactionFromMesh. simpl. rewrite Hpresent, HtoTx. simpl.
  destruct (Z.eqb_spec (number l) 0) as [Hz|Hnz].
  - rewrite (storedTx_upsertTransaction address newTxData txId m Hacc Hid).
    eexists. split; [reflexivity|]. split; [intros; contradiction|].
    intros _. reflexivity.
  - rewrite (storedTx_upsertTransaction address _ txId m Hacc) by exact Hid.
    eexists. split; [reflexivity|]. split; [|intros; contradiction].
    intros _. simpl. apply lookup_union_Some_l. apply lookup_insert_eq.
Qed.

(** X8. The callback of [watchTransactionsByAddress] always writes the layer
    of the push into the record: a push without a layer leaves the stored
    record with [layer] set to [undefined], whatever layer it had. *)
Theorem watch_push_overwrites_layer address txRes t tx txId m :
  is_Some (accountStates m !! address) ->
  res_tx txRes = Some t ->
  toTx t (toTxState PROCESSED (Some (default 0 (res_status txRes)))) = Some tx ->
  id tx = Some txId ->
  let m' := exec (watchTransactionsByAddress_callback address txRes) m in
  exists r, storedTx address txId m' = Some r
    /\ fields r !! "layer"%string = Some (from_option VNum VUndefined (res_layer txRes))
    /\ (res_layer txRes = None -> fields r !! "layer"%string = Some VUndefined).
Proof.
  intros Hacc Ht HtoTx Hid m'. subst m'.
  unfold watchTransactionsByAddress_callback. rewrite Ht, HtoTx.
  rewrite (storedTx_upsertTransaction address _ txId m Hacc) by exact Hid.
  eexists. split; [reflexivity|].
  assert (Hl : forall base,
             (<["layer"%string := from_option VNum VUndefined (res_layer txRes)]> (fields tx)
              ∪ base) !! "layer"%string
             = Some (from_option VNum VUndefined (res_layer txRes))).
  { intros base. apply lookup_union_Some_l. apply lookup_insert_eq. }
  split; [apply Hl|]. intros Hnone. simpl. rewrite Hl, Hnone. reflexivity.
Qed.

(** X9. Account data replaces the snapshot of a tracked account, reading 0
    for every counter or balance the data lacks; the ledger and the rewards
    stay, and the window gets the new snapshot. Data with neither state
    resets both snapshots to zero. *)
Theorem updateAccountData_replaces_snapshot address d m a :
  accountStates m !! address = Some a ->
  let m' := exec (updateAccountData address d) m in
  let bal := mkBalance (snapshot_of (stateCurrent d)) (snapshot_of (stateProjected d)) in
  accountStates m' !! address
  = Some {| state := Some bal; txs := txs a; rewards := rewards a |}
  /\ sent m' = sent m ++ [T_M_UPDATE_ACCOUNT bal address]
  /\ (stateCurrent d = None -> stateProjected d = None ->
      bal = mkBalance (mkSnapshot 0 0) (mkSnapshot 0 0)).
Proof.
  intros Ha m' bal. subst m'. unfold exec.
  rewrite (updateAccountData_present address d m a Ha). simpl.
  rewrite lookup_insert_eq. repeat split.
  intros Hc Hp. subst bal. rewrite Hc, Hp. reflexivity.
Qed.


(** X11. A well-formed reward for a tracked account is appended to its
    rewards, after the ones already there; the ledger and the snapshot stay,
    and the window gets the whole list. *)
Theorem addReward_appends address l t lr c m a :
  accountStates m !! address = Some a ->
  let m' := exec (addReward address (Some (mkRewardOut (Some l) (Some t) (Some lr) (Some c)))) m in
  let parsed := mkReward l t lr c in
  accountStates m' !! address
  = Some {| state := state a; txs := txs a; rewards := rewards a ++ [parsed] |}
  /\ sent m' = sent m ++ [T_M_UPDATE_REWARDS (rewards a ++ [parsed]) address].
Proof.
  intros Ha m' parsed. subst m'. unfold exec, addReward, parseReward. simpl.
  rewrite (storeReward_present address _ m a Ha). simpl.
  rewrite lookup_insert_eq. split; reflexivity.
Qed.

End CallbackProperties.

Section DebounceProperties.
Context `{Imports}.

Lemma timer_fires_for publicKey a m :
  debounced m = Some publicKey ->
  accountStates m !! publicKey = Some a ->
  exec (fire DebounceTimerFired) m
  = set_txStateStream (<[publicKey := dom (txs a)]> (txStateStream m)) (set_debounced None m).
Proof.
  intros Hd Ha. unfold exec. simpl. rewrite Hd.
  unfold subscribeTransactions_body. unfold_M. simpl. rewrite Ha. reflexivity.
Qed.

(** X12. After a transaction is stored and the debounce timer fires, the
    transaction-state stream of the account is opened for every id of its
    ledger, the new one included. *)
Theorem resubscription_covers_the_ledger address txId tx m a :
  accountStates m !! address = Some a ->
  id tx = Some txId ->
  let m' := exec (fire DebounceTimerFired) (exec (upsertTransaction address tx) m) in
  txStateStream m' !! address = Some ({[ txId ]} ∪ dom (txs a))
  /\ debounced m' = None.
Proof.
  intros Ha Hid m'. subst m'.
  set (a' := AccountStateManager.storeTransaction
               (mergeTx (AccountStateManager.getTxById (id tx) a) tx) a).
  set (m1 := exec (upsertTransaction address tx) m).
  assert (Hd : debounced m1 = Some address).
  { subst m1. unfold exec. rewrite (upsertTransaction_present address tx m a Ha).
    reflexivity. }
  assert (Ha1 : accountStates m1 !! address = Some a').
  { subst m1. unfold exec. rewrite (upsertTransaction_present address tx m a Ha).
    simpl. apply lookup_insert_eq. }
  rewrite (timer_fires_for address a' m1 Hd Ha1). simpl.
  rewrite lookup_insert_eq. subst a'. simpl. rewrite Hid. simpl.
  rewrite dom_insert_L. split; reflexivity.
Qed.

(** X13. The debounced [subscribeTransactions] is one function for all
    accounts and keeps the argument of its last call: when transactions are
    stored for account A and then for account B before the timer fires, only
    B's stream is reopened; A's stays as it was, without the new id. *)
Theorem debounce_keeps_the_last_account accountA accountB txA txB m :
  accountA <> accountB ->
  is_Some (accountStates m !! accountA) ->
  is_Some (accountStates m !! accountB) ->
  let m2 := exec (upsertTransaction accountB txB) (exec (upsertTransaction accountA txA) m) in
  let m3 := exec (fire DebounceTimerFired) m2 in
  debounced m2 = Some accountB
  /\ (exists b, accountStates m2 !! accountB = Some b
                /\ txStateStream m3 !! accountB = Some (dom (txs b)))
  /\ txStateStream m3 !! accountA = txStateStream m !! accountA
  /\ debounced m3 = None.
Proof.
  intros Hne [a Ha] [b Hb] m2 m3.
  assert (Hm2 : exists b', debounced m2 = Some accountB
                          /\ accountStates m2 !! accountB = Some b'
                          /\ txStateStream m2 = txStateStream m).
  { subst m2. unfold exec.
    rewrite (upsertTransaction_present accountA txA m a Ha). cbv zeta. simpl.
    erewrite (upsertTransaction_present accountB txB)
      by (simpl; rewrite lookup_insert_ne by congruence; exact Hb).
    simpl. eexists. split; [reflexivity|]. split; [apply lookup_insert_eq|reflexivity]. }
  destruct Hm2 as (b' & Hd & Hb' & Hs).
  subst m3. rewrite (timer_fires_for accountB b' m2 Hd Hb'). simpl.
  split; [exact Hd|]. split.
  - exists b'. split; [exact Hb'|]. apply lookup_insert_eq.
  - split; [|reflexivity]. rewrite lookup_insert_ne by congruence. rewrite Hs. reflexivity.
Qed.

Lemma addAccount_run keypair m :
  let address := accountAddress keypair in
  let loaded := newAccountStateManager address in
  addAccount keypair m =
    (Returned tt,
     mkManager (keychain_with keypair (keychain m))
       (<[address := loaded]> (accountStates m))
       (<[address := accountFeeds]> (unsubs m))
       (txStateStream m)
       (if bool_decide (dom (txs loaded) = ∅) then debounced m else Some address)
       (sent m ++ [T_M_UPDATE_TXS (txs loaded) address;
                   T_M_UPDATE_REWARDS (rewards loaded) address])
       (logged m)).
Proof.
  intros address loaded.
  unfold addAccount, subscribeAccount, push_unsub, updateAppStateTxs,
    updateAppStateRewards, subscribeTransactions.
  fold address. fold loaded.
  unfold_M. simpl.
  repeat (rewrite lookup_insert_eq; simpl).
  unfold AccountStateManager.getTxs.
  subst loaded address. unfold accountAddress.
  destruct (bool_decide _); simpl;
    rewrite lookup_insert_eq; simpl;
    rewrite !insert_insert_eq, <- app_assoc; reflexivity.
Qed.

(** X14. The resubscription reads the store without a guard. When the store
    an account is loaded with already holds transactions, [addAccount] arms
    the debounce; if [setAccounts([])] comes before the timer, the timer
    finds no store and throws a [TypeError], opening no stream. *)
Theorem debounce_timer_after_removal_throws keypair m0 :
  txs (newAccountStateManager (accountAddress keypair)) <> ∅ ->
  let m := exec (setAccounts []) (exec (addAccount keypair) m0) in
  debounced m = Some (accountAddress keypair)
  /\ fire DebounceTimerFired m = (Thrown TypeError, set_debounced None m)
  /\ txStateStream (exec (fire DebounceTimerFired) m) = txStateStream m0.
Proof.
  intros Hne m.
  assert (Hm : m = mkManager [] ∅ ∅ (txStateStream m0) (Some (accountAddress keypair))
                 (sent (exec (addAccount keypair) m0)) (logged m0)).
  { subst m. rewrite exec_setAccounts_nil. unfold exec.
    rewrite (addAccount_run keypair m0). cbv zeta. simpl.
    rewrite bool_decide_eq_false_2; [reflexivity|].
    intros Hd. apply Hne. apply dom_empty_iff_L. exact Hd. }
  rewrite Hm. unfold exec. simpl.
  unfold subscribeTransactions_body. unfold_M. simpl.
  rewrite lookup_empty. repeat split.
Qed.

End DebounceProperties.

Section AccountSetProperties.
Context `{Imports}.

Lemma findIndex_none {A} (p : A -> bool) (l : list A) :
  Forall (fun x => p x = false) l -> findIndex p l = -1.
Proof.
  induction 1 as [|x l Hx Hl IH]; simpl; [reflexivity|].
  rewrite Hx, IH. reflexivity.
Qed.

Lemma keychain_with_fresh keypair l :
  Forall (fun kp => publicKey kp <> publicKey keypair) l ->
  keychain_with keypair l = l ++ [keypair].
Proof.
  intros Hfresh. unfold keychain_with. rewrite findIndex_none; [reflexivity|].
  eapply Forall_impl; [exact Hfresh|]. intros kp Hne. simpl in *.
  apply String.eqb_neq. exact Hne.
Qed.

(** What [accounts.forEach(this.addAccount)] leaves, for key pairs that are
    new to the keychain and differ from one another. *)
Lemma forEach_addAccount accounts :
  forall m,
  NoDup (publicKey <$> accounts) ->
  Forall (fun kp => publicKey kp ∉ (publicKey <$> accounts)) (keychain m) ->
  exists m',
    forEach addAccount accounts m = (Returned tt, m')
    /\ keychain m' = keychain m ++ accounts
    /\ txStateStream m' = txStateStream m
    /\ (forall kp, kp ∈ accounts ->
          accountStates m' !! accountAddress kp
          = Some (newAccountStateManager (accountAddress kp))
          /\ unsubs m' !! accountAddress kp = Some accountFeeds)
    /\ (forall address, address ∉ (accountAddress <$> accounts) ->
          accountStates m' !! address = accountStates m !! address
          /\ unsubs m' !! address = unsubs m !! address).
Proof.
  induction accounts as [|kp rest IH]; intros m Hnodup Hfresh.
  - exists m. simpl. rewrite app_nil_r.
    split; [reflexivity|]. split; [reflexivity|]. split; [reflexivity|].
    split; [|intros; split; reflexivity].
    intros k0 Hin0. inversion Hin0.
  - rewrite fmap_cons in Hnodup. apply NoDup_cons in Hnodup as [Hkp Hrest].
    simpl. unfold mbind, M_bind at 1. rewrite (addAccount_run kp m). cbv zeta.
    set (m1 := mkManager _ _ _ _ _ _ _).
    assert (Hk1 : keychain m1 = keychain m ++ [kp]).
    { subst m1. simpl. apply keychain_with_fresh.
      eapply Forall_impl; [exact Hfresh|]. intros k Hk Heq. apply Hk.
      rewrite fmap_cons, Heq. apply list_elem_of_here. }
    destruct (IH m1 Hrest) as (m' & Hrun & Hkey & Htx & Hin & Hout).
    { rewrite Hk1. apply Forall_app. split.
      - eapply Forall_impl; [exact Hfresh|]. intros k Hk Hin. apply Hk.
        rewrite fmap_cons. apply list_elem_of_further. exact Hin.
      - constructor; [exact Hkp|constructor]. }
    exists m'. split; [exact Hrun|]. split.
    { rewrite Hkey, Hk1, <- app_assoc. reflexivity. }
    split; [rewrite Htx; reflexivity|]. split.
    + intros kp' Hkp'. apply elem_of_cons in Hkp' as [->|Hkp']; [|apply Hin; exact Hkp'].
      destruct (decide (accountAddress kp ∈ (accountAddress <$> rest))) as [Hdup|Hnew].
      * apply list_elem_of_fmap in Hdup as (kp'' & Heq & Hkp'').
        rewrite Heq. apply Hin. exact Hkp''.
      * destruct (Hout _ Hnew) as [Ha Hu]. rewrite Ha, Hu. subst m1. simpl.
        rewrite !lookup_insert_eq. split; reflexivity.
    + intros address Hnot. simpl in Hnot.
      apply not_elem_of_cons in Hnot as [Hne Hnot].
      destruct (Hout _ Hnot) as [Ha Hu]. rewrite Ha, Hu. subst m1. simpl.
      rewrite !lookup_insert_ne by congruence. split; reflexivity.
Qed.

(** X15. [setAccounts] with key pairs of different public keys returns
    normally and leaves exactly these accounts: the keychain is the list
    given, there is one store per derived address and no other, each as
    freshly loaded and with its four cancel functions. The table of
    transaction-state streams is not reset. *)
Theorem setAccounts_tracks_the_given_accounts accounts m :
  NoDup (publicKey <$> accounts) ->
  let m' := exec (setAccounts accounts) m in
  result (setAccounts accounts) m = Returned tt
  /\ keychain m' = accounts
  /\ (forall address,
        is_Some (accountStates m' !! address) <-> address ∈ (accountAddress <$> accounts))
  /\ (forall kp, kp ∈ accounts ->
        accountStates m' !! accountAddress kp
        = Some (newAccountStateManager (accountAddress kp))
        /\ unsubs m' !! accountAddress kp = Some accountFeeds)
  /\ txStateStream m' = txStateStream m.
Proof.
  intros Hnodup m'.
  set (m0 := mkManager [] ∅ ∅ (txStateStream m) (debounced m) (sent m) (logged m)).
  assert (Hrun : setAccounts accounts m = forEach addAccount accounts m0) by reflexivity.
  destruct (forEach_addAccount accounts m0 Hnodup) as (m1 & Hfor & Hkey & Htx & Hin & Hout);
    [constructor|].
  subst m'. unfold result, exec. rewrite Hrun, Hfor. simpl.
  split; [reflexivity|]. split; [exact Hkey|]. split; [|split; [exact Hin|exact Htx]].
  intros address. split.
  - intros Hsome.
    destruct (decide (address ∈ (accountAddress <$> accounts))) as [Hyes|Hno]; [exact Hyes|].
    destruct (Hout _ Hno) as [Ha _]. rewrite Ha in Hsome. simpl in Hsome.
    rewrite lookup_empty in Hsome. destruct Hsome; discriminate.
  - intros Hyes. apply list_elem_of_fmap in Hyes as (kp & -> & Hkp).
    destruct (Hin kp Hkp) as [Ha _]. rewrite Ha. eauto.
Qed.

Lemma upsertTransaction_effect address tx m :
  callback_effect m (exec (upsertTransaction address tx) m).
Proof.
  unfold exec. destruct (accountStates m !! address) as [a|] eqn:Ha.
  - rewrite (upsertTransaction_present address tx m a Ha). cbv zeta.
    eapply effect_store; try reflexivity; [exact Ha|].
    right. eexists. reflexivity.
  - rewrite (upsertTransaction_absent address tx m Ha). apply effect_quiet; reflexivity.
Qed.

Lemma effect_refl m : callback_effect m m.
Proof. apply effect_quiet; reflexivity. Qed.

Lemma fire_effect e m : callback_effect m (exec (fire e) m).
Proof.
  destruct e as [pk tx|address tx|address txRes|address d|address reward|address|address|];
    simpl.
  - unfold handleNewTx.
    destruct (transaction tx), (transactionState tx) as [ts|]; try apply effect_refl.
    destruct (ts_state ts =? 0); [apply effect_refl|].
    destruct (toTx _ _); [apply upsertTransaction_effect|apply effect_refl].
  - unfold upsertTransactionFromMesh.
    destruct tx as [mtx|]; [|apply effect_refl].
    destruct (mesh_transaction mtx) as [t|], (layerId mtx) as [l|]; try apply effect_refl.
    destruct (negb (tx_id_present t)); [apply effect_refl|].
    destruct (toTx t JNull); [apply upsertTransaction_effect|apply effect_refl].
  - unfold watchTransactionsByAddress_callback.
    destruct (res_tx txRes); [|apply effect_refl].
    destruct (toTx _ _); [apply upsertTransaction_effect|apply effect_refl].
  - unfold exec. destruct (accountStates m !! address) as [a|] eqn:Ha.
    + rewrite (updateAccountData_present address d m a Ha). cbv zeta.
      eapply effect_store; try reflexivity; [exact Ha|]. left. reflexivity.
    + rewrite (updateAccountData_absent address d m Ha). apply effect_refl.
  - unfold addReward. destruct reward as [r|]; [|apply effect_refl].
    destruct (parseReward r) as [p|]; [|apply effect_refl].
    unfold exec. destruct (accountStates m !! address) as [a|] eqn:Ha.
    + rewrite (storeReward_present address p m a Ha).
      eapply effect_store; try reflexivity; [exact Ha|]. left. reflexivity.
    + rewrite (storeReward_absent address p m Ha). apply effect_refl.
  - unfold upsertTransaction_resume, storeTx_settled, updateAppStateTxs,
      subscribeTransactions. unfold_M.
    destruct (accountStates m !! address) as [a|] eqn:Ha; simpl.
    + eapply (effect_store m address a a); try reflexivity; [exact Ha| |left; reflexivity].
      simpl. symmetry. apply insert_id. exact Ha.
    + apply effect_quiet; reflexivity.
  - unfold storeReward_settled, updateAppStateRewards. unfold_M.
    destruct (accountStates m !! address) as [a|] eqn:Ha; simpl.
    + eapply (effect_store m address a a); try reflexivity; [exact Ha| |left; reflexivity].
      simpl. symmetry. apply insert_id. exact Ha.
    + apply effect_quiet; reflexivity.
  - unfold exec. destruct (debounced m) as [pk|]; [|apply effect_refl].
    unfold subscribeTransactions_body. unfold_M. simpl.
    destruct (accountStates m !! pk); simpl; apply effect_quiet; reflexivity.
Qed.

(** X16. No callback adds or removes an account: after any run of callbacks
    the same addresses have a store, the keychain and the cancel table are
    untouched, and every message sent meanwhile is about an account that
    has a store. *)
Theorem callbacks_keep_the_account_set es m :
  let m' := run es m in
  dom (accountStates m') = dom (accountStates m)
  /\ keychain m' = keychain m
  /\ unsubs m' = unsubs m
  /\ exists new, sent m' = sent m ++ new
       /\ Forall (fun n => ipc_account n ∈ dom (accountStates m)) new.
Proof.
  revert m. induction es as [|e es IH]; intros m; simpl.
  - repeat split. exists []. rewrite app_nil_r. split; constructor.
  - specialize (IH (exec (fire e) m)). simpl in IH. unfold run in *. simpl.
    destruct IH as (Hdom & Hkey & Huns & new & Hsent & Hnew).
    destruct (fire_effect e m) as [m1 Ha Hs Hk Hu|address a a' n m1 Ha Hacc _ Hs Hn Hk Hu].
    + rewrite Hdom, Hkey, Huns, Hsent, Ha, Hs, Hk, Hu. repeat split.
      exists new. split; [reflexivity|]. rewrite Ha in Hnew. exact Hnew.
    + assert (Hd : dom (accountStates m1) = dom (accountStates m)).
      { rewrite Hacc, dom_insert_L.
        assert (Hin : address ∈ dom (accountStates m)) by (apply elem_of_dom; eauto).
        apply set_eq. intros x. rewrite elem_of_union, elem_of_singleton.
        split; [intros [->|Hx]; assumption | intros Hx; right; exact Hx]. }
      rewrite Hdom, Hkey, Huns, Hsent, Hd, Hs, Hk, Hu. repeat split.
      exists (n :: new). split; [rewrite <- app_assoc; reflexivity|].
      constructor; [rewrite Hn; apply elem_of_dom; eauto|].
      rewrite Hd in Hnew. exact Hnew.
Qed.


End AccountSetProperties.

Section PublishProperties.
Context `{Imports}.

Lemma storedTx_ledgers address txId m1 m2 :
  ledgers m1 = ledgers m2 -> storedTx address txId m1 = storedTx address txId m2.
Proof.
  intros Hl. apply (f_equal (fun l => l !! address)) in Hl.
  unfold ledgers in Hl. rewrite !lookup_fmap in Hl. unfold storedTx.
  destruct (accountStates m1 !! address), (accountStates m2 !! address);
    simpl in Hl; try discriminate; [|reflexivity].
  unfold AccountStateManager.getTxById. inversion Hl as [Heq]. rewrite Heq. reflexivity.
Qed.

Lemma refreshAccountData_run address followUp m :
  exists m', refreshAccountData address followUp m = (Returned tt, m')
             /\ ledgers m' = ledgers m.
Proof.
  pose proof (refreshAccountData_returns address followUp m) as Hr.
  pose proof (refreshAccountData_ledgers address followUp m) as Hl.
  unfold result, exec in *.
  destruct (refreshAccountData address followUp m) as [o m']. simpl in *. subst o.
  exists m'. split; [reflexivity|exact Hl].
Qed.


(** X19. A self-spawn the remote accepts (no error, an id in the answer)
    returns the optimistic record with [error] null; the record carries the
    id and the status of the answer and the current layer, and it is merged
    into the ledger of the account under that id at once. *)
Theorem publishSelfSpawn_stores_the_record
    fee accountIndex response currentLayer followUp m kp a st :
  keychain m !! accountIndex = Some kp ->
  accountStates m !! principalAddress 0 (publicKey kp) = Some a ->
  AccountStateManager.getState a = Some st ->
  submit_error response = None ->
  has_tx_id response = true ->
  let address := principalAddress 0 (publicKey kp) in
  let txId := toHexString (tx_id_bytes response) in
  let publish := publishSelfSpawn fee accountIndex response currentLayer followUp in
  exists t,
    result publish m = Returned (mkPublishResult None (Some t))
    /\ id t = Some txId
    /\ status t = toTxState (from_option ts_state 0 (txstate response)) None
    /\ fields t !! "layer"%string = Some (VNum currentLayer)
    /\ fields t !! "principal"%string = Some (VStr address)
    /\ storedTx address txId (exec publish m)
       = Some (mergeTx (storedTx address txId m) t).
Proof.
  intros Hk Ha Hst Herr Hid address txId publish.
  assert (Hpe : publish_error response = None).
  { unfold publish_error. rewrite Herr, Hid.
    assert (Hts : txstate response <> None).
    { unfold has_tx_id in Hid. destruct (txstate response); [discriminate|discriminate]. }
    rewrite (bool_decide_eq_false_2 (txstate response = None)) by exact Hts.
    rewrite bool_decide_eq_false_2 by (intros [? ?]; discriminate). reflexivity. }
  subst publish. unfold result, exec.
  unfold publishSelfSpawn, theKeyPair, theProjectedCounter, detached.
  rewrite Hpe, Herr, Hid. unfold_M. rewrite Hk. subst address. rewrite Ha, Hst.
  rewrite (bool_decide_eq_true_2 (None = None)) by reflexivity. simpl.
  match goal with
  | |- context [upsertTransaction ?A ?T m] => set (t := T); set (address := A) in *
  end.
  exists t.
  pose proof (storedTx_upsertTransaction address t txId m (ex_intro _ a Ha) eq_refl) as Hstored.
  unfold exec in Hstored.
  destruct (upsertTransaction address t m) as [[[]|e] m1] eqn:Hup;
    [|rewrite (upsertTransaction_present address t m a Ha) in Hup; discriminate].
  destruct (refreshAccountData_run address followUp m1) as (m2 & Hrun & Hl).
  simpl in Hstored. rewrite Hrun. simpl.
  split; [reflexivity|]. split; [reflexivity|]. split; [reflexivity|].
  split; [reflexivity|]. split; [reflexivity|].
  rewrite (storedTx_ledgers address txId m2 m1 Hl). exact Hstored.
Qed.

(** X20. A spend the remote accepts is stored in the same way, and the note
    of the request goes into the record only when it is not empty: a request
    without a note, or with the empty note, stores a record with no [note]. *)
Theorem publishSpendTx_stores_the_record
    fullTx accountIndex response currentLayer followUp m kp a st destination :
  keychain m !! accountIndex = Some kp ->
  accountStates m !! principalAddress 1 (publicKey kp) = Some a ->
  AccountStateManager.getState a = Some st ->
  Bech32_parse (receiver fullTx) = Some destination ->
  submit_error response = None ->
  has_tx_id response = true ->
  let address := principalAddress 1 (publicKey kp) in
  let txId := toHexString (tx_id_bytes response) in
  let publish := publishSpendTx fullTx accountIndex response currentLayer followUp in
  exists t,
    result publish m = Returned (mkPublishResult None (Some t))
    /\ id t = Some txId
    /\ status t = toTxState (from_option ts_state 0 (txstate response)) None
    /\ fields t !! "note"%string
       = match send_note fullTx with
         | Some n => if String.eqb n "" then None else Some (VStr n)
         | None => None
         end
    /\ storedTx address txId (exec publish m)
       = Some (mergeTx (storedTx address txId m) t).
Proof.
  intros Hk Ha Hst Hparse Herr Hid address txId publish.
  assert (Hpe : publish_error response = None).
  { unfold publish_error. rewrite Herr, Hid.
    assert (Hts : txstate response <> None).
    { unfold has_tx_id in Hid. destruct (txstate response); [discriminate|discriminate]. }
    rewrite (bool_decide_eq_false_2 (txstate response = None)) by exact Hts.
    rewrite bool_decide_eq_false_2 by (intros [? ?]; discriminate). reflexivity. }
  subst publish. unfold result, exec.
  unfold publishSpendTx, theKeyPair, theProjectedCounter, detached.
  rewrite Hpe, Herr, Hid, Hparse. unfold_M. rewrite Hk. subst address. rewrite Ha, Hst.
  rewrite (bool_decide_eq_true_2 (None = None)) by reflexivity. simpl.
  match goal with
  | |- context [upsertTransaction ?A ?T m] => set (t := T); set (address := A) in *
  end.
  exists t.
  pose proof (storedTx_upsertTransaction address t txId m (ex_intro _ a Ha) eq_refl) as Hstored.
  unfold exec in Hstored.
  destruct (upsertTransaction address t m) as [[[]|e] m1] eqn:Hup;
    [|rewrite (upsertTransaction_present address t m a Ha) in Hup; discriminate].
  destruct (refreshAccountData_run address followUp m1) as (m2 & Hrun & Hl).
  simpl in Hstored. rewrite Hrun. simpl.
  split; [reflexivity|]. split; [reflexivity|]. split; [reflexivity|].
  split.
  - subst t. simpl. destruct (send_note fullTx) as [n|]; [|reflexivity].
    destruct (String.eqb n ""); reflexivity.
  - rewrite (storedTx_ledgers address txId m2 m1 Hl). exact Hstored.
Qed.

End PublishProperties.

Section QueryProperties.
Context `{Imports}.

Lemma retrieveAccountData_from {Svc W : Type}
    (query : Svc -> Bech32Address -> AccountDataReply * Svc)
    (address : Bech32Address) (handler : Account__Output -> W -> W) (w : W) (left : nat) :
  forall (retries : Z) (asked : nat) (s : Svc) (fuel : nat),
  retries = 5 - Z.of_nat left ->
  (left < fuel)%nat ->
  exists s' k w',
    retrieveAccountData (counting query) fuel address handler retries (s, asked) w
    = Some ((s', k), w')
    /\ (asked < k <= asked + left + 1)%nat
    /\ (w' = w \/ exists d, w' = handler d w).
Proof.
  induction left as [|left IH]; intros retries asked s fuel Hr Hfuel;
    (destruct fuel as [|fuel]; [lia|]); simpl;
    unfold counting at 1; simpl; destruct (query s address) as [r s1].
  - subst retries. change (5 - Z.of_nat 0 <? 5) with false. rewrite andb_false_r.
    destruct (ad_data r) as [|d rest]; eexists _, _, _;
      (split; [reflexivity|]); (split; [lia|]); eauto.
  - destruct (bool_decide (is_Some (ad_error r))); simpl.
    + destruct (Z.ltb_spec retries 5); [|lia].
      destruct (IH (retries + 1) (S asked) s1 fuel) as (s' & k & w' & Hrun & Hk & Hw);
        [lia|lia|].
      exists s', k, w'. split; [exact Hrun|]. split; [lia|exact Hw].
    + destruct (ad_data r) as [|d rest]; eexists _, _, _;
        (split; [reflexivity|]); (split; [lia|]); eauto.
Qed.

(** X21. Whatever the service answers, [retrieveAccountData] comes to an end
    after at least one and at most six queries (the first attempt and five
    retries), and it calls the handler at most once. *)
Theorem retrieveAccountData_ends {Svc W : Type}
    (query : Svc -> Bech32Address -> AccountDataReply * Svc)
    (address : Bech32Address) (handler : Account__Output -> W -> W)
    (s : Svc) (w : W) (fuel : nat) :
  (6 <= fuel)%nat ->
  exists s' k w',
    retrieveAccountData (counting query) fuel address handler 0 (s, 0%nat) w
    = Some ((s', k), w')
    /\ (1 <= k <= 6)%nat
    /\ (w' = w \/ exists d, w' = handler d w).
Proof.
  intros Hfuel.
  destruct (retrieveAccountData_from query address handler w 5 0 0 s fuel)
    as (s' & k & w' & Hrun & Hk & Hw); [reflexivity|lia|].
  exists s', k, w'. split; [exact Hrun|]. split; [lia|exact Hw].
Qed.

End QueryProperties.

Section LedgerWalk.
Context `{Imports}.
Context {A : Type}.
Variable records : list A.
Variable failure : MeshReply A.
Variable accountId : Bech32Address.
Hypothesis positive_page : 0 < GRPC_QUERY_BATCH_SIZE.
Hypothesis failure_fails : is_Some (error failure).

Local Abbreviation service := (ledgerService records GRPC_QUERY_BATCH_SIZE failure).

Lemma deliver_page (page : list (AccountMeshData A)) (delivered : list A) :
  foldl (fun w tx => deliver (meshTransaction tx) w) delivered page
  = delivered ++ map meshTransaction page.
Proof.
  revert delivered. induction page as [|x page IH]; intros delivered; simpl.
  - rewrite app_nil_r. reflexivity.
  - rewrite IH. unfold deliver. rewrite <- app_assoc. reflexivity.
Qed.

Lemma ledgerPage_entries (offset : Z) :
  map meshTransaction (ledgerPage records GRPC_QUERY_BATCH_SIZE offset)
  = take (Z.to_nat GRPC_QUERY_BATCH_SIZE) (drop (Z.to_nat offset) records).
Proof.
  unfold ledgerPage. generalize (take (Z.to_nat GRPC_QUERY_BATCH_SIZE)
                                   (drop (Z.to_nat offset) records)).
  intros l. induction l as [|x l IH]; simpl; [reflexivity|]. f_equal. exact IH.
Qed.

(** The failures left at one offset are used up, the retries staying within
    the budget. *)
Lemma retry_phase (offset : Z) (w : list A) (f : nat) :
  forall (retries : Z) (st : gmap Z nat) (fuel : nat),
  default 0%nat (st !! offset) = f ->
  0 <= retries -> retries + Z.of_nat f <= 5 ->
  failures_bounded st ->
  exists st1,
    retrieveHistoricTxData service (f + fuel) accountId offset deliver retries st w
    = retrieveHistoricTxData service fuel accountId offset deliver
        (retries + Z.of_nat f) st1 w
    /\ default 0%nat (st1 !! offset) = 0%nat
    /\ failures_bounded st1.
Proof.
  induction f as [|f IH]; intros retries st fuel Hf Hr Hbudget Hb.
  - exists st. rewrite Z.add_0_r. split; [reflexivity|]. split; assumption.
  - destruct (st !! offset) as [[|k]|] eqn:Hst; simpl in Hf; try discriminate.
    inversion Hf; subst k.
    destruct (IH (retries + 1) (<[offset := f]> st) fuel) as (st1 & Hrun & Hz & Hb1).
    + rewrite lookup_insert_eq. reflexivity.
    + lia.
    + lia.
    + apply map_Forall_insert_2; [|exact Hb].
      specialize (Hb offset (S f) Hst). simpl in Hb. lia.
    + exists st1. split; [|split; assumption].
      change (S f + fuel)%nat with (S (f + fuel)). simpl.
      unfold ledgerService at 1. rewrite Hst.
      rewrite bool_decide_eq_true_2 by exact failure_fails.
      destruct (Z.ltb_spec retries 5); [|lia]. simpl.
      rewrite Hrun. f_equal. lia.
Qed.

Lemma walk_from (n : nat) :
  forall (offset : Z) (st : gmap Z nat) (delivered : list A) (fuel : nat),
  0 <= offset ->
  (length records - Z.to_nat offset <= n)%nat ->
  failures_bounded st ->
  (6 * (n + 1) <= fuel)%nat ->
  exists st',
    retrieveHistoricTxData service fuel accountId offset deliver 0 st delivered
    = Some (st', delivered ++ drop (Z.to_nat offset) records).
Proof.
  induction n as [|n IH]; intros offset st delivered fuel Ho Hn Hb Hfuel.
  all: set (f := default 0%nat (st !! offset)).
  all: assert (Hf5 : (f <= 5)%nat)
         by (subst f; destruct (st !! offset) as [k|] eqn:Hst; simpl;
             [exact (Hb offset k Hst)|lia]).
  all: destruct (retry_phase offset delivered f 0 st (fuel - f)) as (st1 & Hrun & Hz & Hb1);
         [reflexivity|lia|lia|exact Hb|].
  all: replace (f + (fuel - f))%nat with fuel in Hrun by lia.
  all: rewrite Hrun.
  all: destruct (fuel - f)%nat as [|fuel1] eqn:Hfuel1; [lia|].
  all: simpl.
  all: unfold ledgerService at 1.
  all: assert (Hpage : match st1 !! offset with
                       | Some (S k) => (failure, <[offset := k]> st1)
                       | _ => (mkMeshReply (ledgerPage records GRPC_QUERY_BATCH_SIZE offset)
                                 (Z.of_nat (length records)) None, st1)
                       end
                       = (mkMeshReply (ledgerPage records GRPC_QUERY_BATCH_SIZE offset)
                            (Z.of_nat (length records)) None, st1))
         by (destruct (st1 !! offset) as [[|k]|]; simpl in Hz;
             [reflexivity|discriminate|reflexivity]).
  all: rewrite Hpage; simpl.
  all: rewrite deliver_page, ledgerPage_entries.
  - destruct (Z.ltb_spec (offset + GRPC_QUERY_BATCH_SIZE) (Z.of_nat (length records)));
      [lia|].
    exists st1. f_equal. f_equal. f_equal.
    rewrite take_ge; [reflexivity|]. rewrite length_drop. lia.
  - destruct (Z.ltb_spec (offset + GRPC_QUERY_BATCH_SIZE) (Z.of_nat (length records))).
    + destruct (IH (offset + GRPC_QUERY_BATCH_SIZE) st1
                  (delivered ++ take (Z.to_nat GRPC_QUERY_BATCH_SIZE)
                                  (drop (Z.to_nat offset) records)) fuel1)
        as (st' & Hwalk); [lia|lia|exact Hb1|lia|].
      exists st'. rewrite Hwalk. f_equal. f_equal. rewrite <- app_assoc. f_equal.
      replace (Z.to_nat (offset + GRPC_QUERY_BATCH_SIZE))
        with (Z.to_nat offset + Z.to_nat GRPC_QUERY_BATCH_SIZE)%nat by lia.
      rewrite <- drop_drop. apply take_drop.
    + exists st1. f_equal. f_equal. f_equal.
      rewrite take_ge; [reflexivity|]. rewrite length_drop. lia.
Qed.

(** X22. Against a ledger served by pages, the walk hands every record to the
    handler once, in order, whatever the number of records (none, fewer than
    a page, a whole number of pages) and even when each page fails up to five
    times before it answers: the budget of retries starts afresh on every
    page. *)
Theorem walk_delivers_the_ledger (failuresLeft : gmap Z nat) (delivered : list A)
    (fuel : nat) :
  failures_bounded failuresLeft ->
  (6 * (length records + 1) <= fuel)%nat ->
  exists st',
    retrieveHistoricTxData (ledgerService records GRPC_QUERY_BATCH_SIZE failure)
      fuel accountId 0 deliver 0 failuresLeft delivered
    = Some (st', delivered ++ records).
Proof.
  intros Hb Hfuel.
  destruct (walk_from (length records) 0 failuresLeft delivered fuel) as (st' & Hwalk);
    [lia|lia|exact Hb|exact Hfuel|].
  exists st'. exact Hwalk.
Qed.

End LedgerWalk.

Section RewardWalk.
Context `{Imports}.

Lemma getAccountDataQuery_attempts (coinbase : Bech32Address) (offset batch : Z)
    (rest : list RewardsReply) (answer : RewardsReply) (failures : list RewardsReply) :
  forall (retries : nat) (asked : list Z),
  Forall (fun r => is_Some (rr_error r)) failures ->
  (length failures <= retries)%nat ->
  length failures = retries \/ rr_error answer = None ->
  getAccountDataQuery scripted coinbase offset batch retries
    (failures ++ answer :: rest, asked)
  = (answer, (rest, asked ++ replicate (S (length failures))
                               (offset + batch * GRPC_QUERY_BATCH_SIZE))).
Proof.
  induction failures as [|r failures IH]; intros retries asked Hfail Hlen Hlast.
  - destruct retries as [|retries]; simpl; [reflexivity|].
    destruct Hlast as [Hlast|Hlast]; [discriminate|]. rewrite Hlast. reflexivity.
  - apply Forall_cons in Hfail as [Hr Hfail].
    destruct retries as [|retries]; simpl in Hlen; [lia|].
    cbn [getAccountDataQuery app]. unfold scripted at 1. cbn [fst snd].
    rewrite bool_decide_eq_true_2 by exact Hr.
    rewrite IH; [|exact Hfail|lia|destruct Hlast as [Hlast|Hlast]; [left; simpl in Hlast; lia|right; exact Hlast]].
    rewrite <- app_assoc. reflexivity.
Qed.

Lemma getAccountDataQuery_answered (coinbase : Bech32Address) (offset : Z)
    (r : RewardsReply) (rest : list RewardsReply) (asked : list Z) :
  rr_error r = None ->
  getAccountDataQuery scripted coinbase offset 0 5 (r :: rest, asked)
  = (r, (rest, asked ++ [offset])).
Proof.
  intros Hr.
  pose proof (getAccountDataQuery_attempts coinbase offset 0 rest r [] 5 asked) as Hq.
  cbn [app length replicate] in Hq. rewrite Hq; [|constructor|lia|right; exact Hr].
  rewrite Z.mul_0_l, Z.add_0_r. reflexivity.
Qed.

Lemma retrieveRewards_pages (coinbase : Bech32Address) (last : RewardsReply)
    (pages : list RewardsReply) :
  forall (offset : Z) (asked : list Z) (fuel : nat),
  Forall page_goes_on pages ->
  rr_error last = None -> rr_totalResults last <= GRPC_QUERY_BATCH_SIZE ->
  (length pages < fuel)%nat ->
  retrieveRewards scripted fuel coinbase offset (pages ++ [last], asked)
  = Some (concat (rr_data <$> pages)
            ++ filter (fun item => validRewardItem item = true) (rr_data last),
          ([], asked ++ pageOffsets GRPC_QUERY_BATCH_SIZE offset (S (length pages)))).
Proof.
  induction pages as [|p pages IH]; intros offset asked fuel Hpages Hlast Htotal Hfuel;
    (destruct fuel as [|fuel]; [simpl in Hfuel; lia|]);
    cbn [retrieveRewards app].
  - rewrite getAccountDataQuery_answered by exact Hlast.
    destruct (Z.leb_spec (rr_totalResults last) GRPC_QUERY_BATCH_SIZE); [|lia].
    reflexivity.
  - apply Forall_cons in Hpages as [[Hp Hmore] Hpages].
    rewrite getAccountDataQuery_answered by exact Hp.
    destruct (Z.leb_spec (rr_totalResults p) GRPC_QUERY_BATCH_SIZE); [lia|].
    rewrite IH; [|exact Hpages|exact Hlast|exact Htotal|simpl in Hfuel; lia].
    simpl. rewrite <- !app_assoc. reflexivity.
Qed.

Lemma reduce_is_omap (items : list (option Reward__Output)) :
  forall acc : list Reward,
  foldl (fun acc reward =>
           match reward ≫= parseReward with
           | Some parsedReward => acc ++ [parsedReward]
           | None => acc
           end) acc items
  = acc ++ omap (fun reward => reward ≫= parseReward) items.
Proof.
  induction items as [|item items IH]; intros acc; simpl.
  - rewrite app_nil_r. reflexivity.
  - rewrite IH. destruct (item ≫= parseReward); [|reflexivity].
    rewrite <- app_assoc. reflexivity.
Qed.

Lemma omap_valid (items : list (option Reward__Output)) :
  omap (fun reward => reward ≫= parseReward)
    (filter (fun item => validRewardItem item = true) items)
  = omap (fun reward => reward ≫= parseReward) items.
Proof.
  induction items as [|item items IH]; [reflexivity|].
  rewrite filter_cons. destruct (decide (validRewardItem item = true)) as [Hv|Hv].
  - change (omap ?f (item :: ?l))
      with (from_option (fun y => y :: omap f l) (omap f l) (f item)).
    rewrite IH. reflexivity.
  - rewrite IH. destruct item as [r|]; simpl; [|reflexivity].
    simpl in Hv. destruct (parseReward r); [|reflexivity].
    exfalso. apply Hv. apply bool_decide_eq_true_2. eauto.
Qed.

(** X23. The helper inside [retrieveRewards] asks again, at the same offset,
    as long as the answer fails and retries are left, and gives back the
    first answer that does not fail or, after the retries are used up, the
    last failed answer as it is. *)
Theorem getAccountDataQuery_retries (coinbase : Bech32Address) (offset batch : Z)
    (failures rest : list RewardsReply) (answer : RewardsReply) (asked : list Z) :
  Forall (fun r => is_Some (rr_error r)) failures ->
  (length failures <= 5)%nat ->
  length failures = 5%nat \/ rr_error answer = None ->
  getAccountDataQuery scripted coinbase offset batch 5
    (failures ++ answer :: rest, asked)
  = (answer, (rest, asked ++ replicate (S (length failures))
                               (offset + batch * GRPC_QUERY_BATCH_SIZE))).
Proof.
  intros Hfail Hlen Hlast. apply getAccountDataQuery_attempts; assumption.
Qed.

(** X24. [retrieveRewards] asks for one page after the other, a batch apart,
    while the answers report more results than a batch holds; the entries of
    those pages are returned as they came, [null] and incomplete ones
    included, and only the entries of the last page are filtered. *)
Theorem retrieveRewards_filters_the_last_page_only (coinbase : Bech32Address)
    (pages : list RewardsReply) (last : RewardsReply) (offset : Z) (asked : list Z)
    (fuel : nat) :
  Forall page_goes_on pages ->
  rr_error last = None -> rr_totalResults last <= GRPC_QUERY_BATCH_SIZE ->
  (length pages < fuel)%nat ->
  retrieveRewards scripted fuel coinbase offset (pages ++ [last], asked)
  = Some (concat (rr_data <$> pages)
            ++ filter (fun item => validRewardItem item = true) (rr_data last),
          ([], asked ++ pageOffsets GRPC_QUERY_BATCH_SIZE offset (S (length pages)))).
Proof.
  intros Hpages Hlast Htotal Hfuel. apply retrieveRewards_pages; assumption.
Qed.

Lemma getAccountDataQuery_total {Svc : Type}
    (query : Svc -> Bech32Address -> Z -> RewardsReply * Svc)
    (coinbase : Bech32Address) (offset batch : Z) :
  (forall s c o, GRPC_QUERY_BATCH_SIZE < rr_totalResults (fst (query s c o))) ->
  forall (retries : nat) (s : Svc),
  GRPC_QUERY_BATCH_SIZE
  < rr_totalResults (fst (getAccountDataQuery query coinbase offset batch retries s)).
Proof.
  intros Hall. induction retries as [|retries IH]; intros s; simpl;
    specialize (Hall s coinbase (offset + batch * GRPC_QUERY_BATCH_SIZE));
    destruct (query s coinbase (offset + batch * GRPC_QUERY_BATCH_SIZE)) as [res s'];
    simpl in Hall; [exact Hall|].
  destruct (bool_decide (is_Some (rr_error res))); [apply IH|exact Hall].
Qed.

(** X25. [retrieveRewards] stops on the total an answer reports, not on the
    offset it has reached: against a service whose answers always report
    more results than a batch holds, it never returns, however long it is
    let run. *)
Theorem retrieveRewards_never_returns {Svc : Type}
    (query : Svc -> Bech32Address -> Z -> RewardsReply * Svc)
    (coinbase : Bech32Address) :
  (forall s c o, GRPC_QUERY_BATCH_SIZE < rr_totalResults (fst (query s c o))) ->
  forall (fuel : nat) (offset : Z) (s : Svc),
  retrieveRewards query fuel coinbase offset s = None.
Proof.
  intros Hall. induction fuel as [|fuel IH]; intros offset s; [reflexivity|].
  cbn [retrieveRewards].
  pose proof (getAccountDataQuery_total query coinbase offset 0 Hall 5 s) as Htotal.
  destruct (getAccountDataQuery query coinbase offset 0 5 s) as [res s'].
  simpl in Htotal.
  destruct (Z.leb_spec (rr_totalResults res) GRPC_QUERY_BATCH_SIZE); [lia|].
  rewrite IH. reflexivity.
Qed.

(** X26. [retrieveNewRewards] returns the stored rewards followed by the
    parsed rewards of every page: the [null] and incomplete entries that
    [retrieveRewards] lets through on the pages before the last are dropped
    here, and the walk starts at the last synced rewards layer, used as the
    offset. *)
Theorem retrieveNewRewards_parses_every_page (coinbase : Bech32Address)
    (m : TransactionManager) (a : AccountState)
    (pages : list RewardsReply) (last : RewardsReply) (asked : list Z) (fuel : nat) :
  accountStates m !! coinbase = Some a ->
  Forall page_goes_on pages ->
  rr_error last = None -> rr_totalResults last <= GRPC_QUERY_BATCH_SIZE ->
  (length pages < fuel)%nat ->
  retrieveNewRewards scripted fuel coinbase m (pages ++ [last], asked)
  = Some (rewards a
            ++ omap (fun reward => reward ≫= parseReward)
                 (concat (rr_data <$> pages ++ [last])),
          ([], asked ++ pageOffsets GRPC_QUERY_BATCH_SIZE (lastSyncedRewardsLayer a)
                          (S (length pages)))).
Proof.
  intros Ha Hpages Hlast Htotal Hfuel.
  unfold retrieveNewRewards. rewrite Ha. cbn [from_option].
  rewrite retrieveRewards_pages by assumption.
  rewrite reduce_is_omap. cbn [app].
  rewrite fmap_app, concat_app, !omap_app, omap_valid. simpl.
  rewrite app_nil_r. reflexivity.
Qed.

End RewardWalk.

(** * The properties at concrete inputs *)

Section MoreClosedExamples.
Local Existing Instance sampleImports.

(** X1, at a concrete store: "success" arrives for the stored ["aa"]. *)
Lemma upsertTransaction_frame_witness :
  let m := managerWith TxState.PENDING in
  let m' := exec (upsertTransaction "sm1qacct" (statusUpdate TxState.SUCCESS)) m in
  (forall other, other <> "sm1qacct"%string ->
     accountStates m' !! other = accountStates m !! other)
  /\ (forall k, k <> "aa"%string -> storedTx "sm1qacct" k m' = storedTx "sm1qacct" k m)
  /\ state <$> (accountStates m' !! "sm1qacct"%string)
     = state <$> (accountStates m !! "sm1qacct"%string)
  /\ rewards <$> (accountStates m' !! "sm1qacct"%string)
     = rewards <$> (accountStates m !! "sm1qacct"%string)
  /\ keychain m' = keychain m
  /\ unsubs m' = unsubs m
  /\ txStateStream m' = txStateStream m.
Proof.
  exact (upsertTransaction_frame "sm1qacct" "aa" (statusUpdate TxState.SUCCESS)
           (managerWith TxState.PENDING) eq_refl).
Defined.

(** X2, at a concrete store: "success" delivered twice to an empty ledger. *)
Lemma upsertTransaction_twice_witness :
  let u := statusUpdate TxState.SUCCESS in
  accountStates (exec (upsertTransaction "sm1qacct" u)
                   (exec (upsertTransaction "sm1qacct" u) managerFresh))
  = accountStates (exec (upsertTransaction "sm1qacct" u) managerFresh).
Proof.
  exact (upsertTransaction_twice "sm1qacct" "aa" (statusUpdate TxState.SUCCESS)
           managerFresh eq_refl).
Defined.

(** X3, at a concrete store: the stored receipt has a fee, the incoming one
    the gas used. *)
Lemma upsertTransaction_receipt_witness :
  let tx := mkTx (Some "aa"%string) (JNum TxState.SUCCESS)
              (Some {[ "gas"%string := VNum 2 ]}) ∅ in
  let old : gmap string value := {[ "fee"%string := VNum 1 ]} in
  exists r merged,
    storedTx "sm1qacct" "aa" (exec (upsertTransaction "sm1qacct" tx) managerPair) = Some r
    /\ receipt r = Some merged
    /\ (forall k, is_Some (old !! k) -> is_Some (merged !! k))
    /\ (forall incoming k v,
          receipt tx = Some incoming -> incoming !! k = Some v -> merged !! k = Some v)
    /\ (forall incoming k,
          receipt tx = Some incoming -> incoming !! k = None -> merged !! k = old !! k)
    /\ (receipt tx = None -> merged = old).
Proof.
  apply (upsertTransaction_receipt "sm1qacct" "aa"
           (mkTx (Some "aa"%string) (JNum TxState.SUCCESS)
              (Some {[ "gas"%string := VNum 2 ]}) ∅)
           (mkTx (Some "aa"%string) (JNum TxState.PENDING)
              (Some {[ "fee"%string := VNum 1 ]}) {[ "layer"%string := VNum 5 ]})
           {[ "fee"%string := VNum 1 ]} managerPair);
    reflexivity.
Defined.

(** X4, at a concrete store: a note for the stored ["aa"]. *)
Lemma updateTxNote_changes_only_the_note_witness :
  let r := mkTx (Some "aa"%string) (JNum TxState.SUCCESS) None ∅ in
  let m := managerWith TxState.SUCCESS in
  let m' := exec (updateTxNote "sm1qacct" "aa" "rent") m in
  let ledger : gmap string Tx := <[ "aa"%string := withNote "rent" r ]> {[ "aa"%string := r ]} in
  result (updateTxNote "sm1qacct" "aa" "rent") m = Returned tt
  /\ storedTx "sm1qacct" "aa" m' = Some (withNote "rent" r)
  /\ ledgers m' !! "sm1qacct"%string = Some ledger
  /\ sent m' = sent m ++ [T_M_UPDATE_TXS ledger "sm1qacct"].
Proof.
  exact (updateTxNote_changes_only_the_note "sm1qacct" "aa" "rent"
           (mkTx (Some "aa"%string) (JNum TxState.SUCCESS) None ∅)
           (managerWith TxState.SUCCESS)
           {| state := None;
              txs := {[ "aa"%string := mkTx (Some "aa"%string) (JNum TxState.SUCCESS) None ∅ ]};
              rewards := [] |}
           eq_refl eq_refl eq_refl).
Defined.

(** X5, at a manager that tracks no account. *)
Lemma unguarded_reads_throw_witness :
  updateTxNote "sm1qacct" "aa" "rent" emptyManager = (Thrown TypeError, emptyManager)
  /\ updateAppStateAccount "sm1qacct" emptyManager = (Thrown TypeError, emptyManager)
  /\ updateAppStateTxs "sm1qacct" emptyManager = (Thrown TypeError, emptyManager)
  /\ updateAppStateRewards "sm1qacct" emptyManager = (Thrown TypeError, emptyManager).
Proof.
  exact (unguarded_reads_throw "sm1qacct" "aa" "rent" emptyManager eq_refl).
Defined.

(** X7, at a concrete push: layer 9 for the stored ["aa"], whose layer was 5. *)
Lemma mesh_push_layer_witness :
  let t : Tx := statusUpdate TxState.PENDING in
  let newTxData := mkTx (Some "aa"%string) JNull None ∅ in
  let m' := exec (upsertTransactionFromMesh "sm1qacct"
                    (Some {| mesh_transaction := Some t; layerId := Some (mkLayer 9) |}))
              managerPair in
  exists r, storedTx "sm1qacct" "aa" m' = Some r
    /\ (number (mkLayer 9) <> 0 ->
        fields r !! "layer"%string = Some (VNum (number (mkLayer 9))))
    /\ (number (mkLayer 9) = 0 ->
        fields r !! "layer"%string
        = (fields newTxData ∪ from_option fields ∅ (storedTx "sm1qacct" "aa" managerPair))
            !! "layer"%string).
Proof.
  apply (@mesh_push_layer sampleImports "sm1qacct" (statusUpdate TxState.PENDING) (mkLayer 9)
           (mkTx (Some "aa"%string) JNull None ∅) "aa" managerPair).
  - eexists. reflexivity.
  - reflexivity.
  - reflexivity.
  - reflexivity.
Defined.

(** X8, at a concrete push: a result without layer for the stored ["aa"],
    whose layer was 5. *)
Lemma watch_push_overwrites_layer_witness :
  let t : Tx := statusUpdate TxState.PENDING in
  let txRes := {| res_tx := Some t; res_status := Some 1; res_layer := None |} in
  let m' := exec (watchTransactionsByAddress_callback "sm1qacct" txRes) managerPair in
  exists r, storedTx "sm1qacct" "aa" m' = Some r
    /\ fields r !! "layer"%string = Some (from_option VNum VUndefined (res_layer txRes))
    /\ (res_layer txRes = None -> fields r !! "layer"%string = Some VUndefined).
Proof.
  apply (@watch_push_overwrites_layer sampleImports "sm1qacct"
           (@mkTxResult sampleImports (Some (statusUpdate TxState.PENDING)) (Some 1) None)
           (statusUpdate TxState.PENDING)
           (mkTx (Some "aa"%string) (JNum 3) None ∅) "aa" managerPair).
  - eexists. reflexivity.
  - reflexivity.
  - reflexivity.
  - reflexivity.
Defined.

(** X9, at concrete data: a current state and no projected state. *)
Lemma updateAccountData_replaces_snapshot_witness :
  let d := mkAccountOut (Some (mkStateOut 3 (Some 1000))) None in
  let m' := exec (updateAccountData "sm1qacct" d) managerFresh in
  let bal := mkBalance (snapshot_of (stateCurrent d)) (snapshot_of (stateProjected d)) in
  accountStates m' !! "sm1qacct"%string
  = Some {| state := Some bal; txs := txs emptyAccount; rewards := rewards emptyAccount |}
  /\ sent m' = sent managerFresh ++ [T_M_UPDATE_ACCOUNT bal "sm1qacct"]
  /\ (stateCurrent d = None -> stateProjected d = None ->
      bal = mkBalance (mkSnapshot 0 0) (mkSnapshot 0 0)).
Proof.
  exact (updateAccountData_replaces_snapshot "sm1qacct"
           (mkAccountOut (Some (mkStateOut 3 (Some 1000))) None)
           managerFresh emptyAccount eq_refl).
Defined.

(** X11, at a concrete store: a second reward for an account that has one. *)
Lemma addReward_appends_witness :
  let a := {| state := None; txs := ∅; rewards := [mkReward 7 50 40 "sm1qacct"] |} in
  let m' := exec (addReward "sm1qacct"
                    (Some (mkRewardOut (Some 8) (Some 50) (Some 40) (Some "sm1qacct"%string))))
              managerRewarded in
  let parsed := mkReward 8 50 40 "sm1qacct" in
  accountStates m' !! "sm1qacct"%string
  = Some {| state := state a; txs := txs a; rewards := rewards a ++ [parsed] |}
  /\ sent m' = sent managerRewarded ++ [T_M_UPDATE_REWARDS (rewards a ++ [parsed]) "sm1qacct"].
Proof.
  exact (addReward_appends "sm1qacct" 8 50 40 "sm1qacct" managerRewarded
           {| state := None; txs := ∅; rewards := [mkReward 7 50 40 "sm1qacct"] |}
           eq_refl).
Defined.

(** X12, at a concrete store: ["bb"] is stored beside ["aa"]. *)
Lemma resubscription_covers_the_ledger_witness :
  let tx := mkTx (Some "bb"%string) (JNum TxState.PENDING) None ∅ in
  let a := {| state := None;
              txs := {[ "aa"%string := mkTx (Some "aa"%string) (JNum 1) None ∅ ]};
              rewards := [] |} in
  let m' := exec (fire DebounceTimerFired)
              (exec (upsertTransaction "sm1qacct" tx) (managerWith 1)) in
  txStateStream m' !! "sm1qacct"%string = Some ({[ "bb"%string ]} ∪ dom (txs a))
  /\ debounced m' = None.
Proof.
  exact (resubscription_covers_the_ledger "sm1qacct" "bb"
           (mkTx (Some "bb"%string) (JNum TxState.PENDING) None ∅) (managerWith 1)
           {| state := None;
              txs := {[ "aa"%string := mkTx (Some "aa"%string) (JNum 1) None ∅ ]};
              rewards := [] |}
           eq_refl eq_refl).
Defined.

(** X13, at two concrete accounts. *)
Lemma debounce_keeps_the_last_account_witness :
  let txA := statusUpdate TxState.SUCCESS in
  let txB := mkTx (Some "bb"%string) (JNum TxState.PENDING) None ∅ in
  let m2 := exec (upsertTransaction "sm1qother" txB)
              (exec (upsertTransaction "sm1qacct" txA) managerPair) in
  let m3 := exec (fire DebounceTimerFired) m2 in
  debounced m2 = Some "sm1qother"%string
  /\ (exists b, accountStates m2 !! "sm1qother"%string = Some b
                /\ txStateStream m3 !! "sm1qother"%string = Some (dom (txs b)))
  /\ txStateStream m3 !! "sm1qacct"%string = txStateStream managerPair !! "sm1qacct"%string
  /\ debounced m3 = None.
Proof.
  apply (debounce_keeps_the_last_account "sm1qacct" "sm1qother"
           (statusUpdate TxState.SUCCESS)
           (mkTx (Some "bb"%string) (JNum TxState.PENDING) None ∅) managerPair).
  - discriminate.
  - eexists. reflexivity.
  - eexists. reflexivity.
Defined.

(** X15, at two key pairs, from a manager that tracked another account. *)
Lemma setAccounts_tracks_the_given_accounts_witness :
  let accounts := [mkKeyPair "pkA" "skA"; mkKeyPair "pkB" "skB"] in
  let m' := exec (setAccounts accounts) managerReady in
  result (setAccounts accounts) managerReady = Returned tt
  /\ keychain m' = accounts
  /\ (forall address,
        is_Some (accountStates m' !! address) <-> address ∈ (accountAddress <$> accounts))
  /\ (forall kp, kp ∈ accounts ->
        accountStates m' !! accountAddress kp
        = Some (newAccountStateManager (accountAddress kp))
        /\ unsubs m' !! accountAddress kp = Some accountFeeds)
  /\ txStateStream m' = txStateStream managerReady.
Proof.
  apply (setAccounts_tracks_the_given_accounts
           [mkKeyPair "pkA" "skA"; mkKeyPair "pkB" "skB"] managerReady).
  simpl. apply NoDup_cons. split; [|apply NoDup_singleton].
  intros Hin. inversion Hin as [|? ? ? Hin']. inversion Hin'.
Defined.


(** X19, at a concrete answer: an id and the state 1. *)
Lemma publishSelfSpawn_stores_the_record_witness :
  let response := mkSubmit None (Some (mkTxStateOut (Some (mkTxId (Some [1; 2]))) 1)) in
  let address := principalAddress 0 "sm1qacct" in
  let txId := toHexString (tx_id_bytes response) in
  let publish := publishSelfSpawn 1 0%nat response 77 None in
  exists t,
    result publish managerReady = Returned (mkPublishResult None (Some t))
    /\ id t = Some txId
    /\ status t = toTxState (from_option ts_state 0 (txstate response)) None
    /\ fields t !! "layer"%string = Some (VNum 77)
    /\ fields t !! "principal"%string = Some (VStr address)
    /\ storedTx address txId (exec publish managerReady)
       = Some (mergeTx (storedTx address txId managerReady) t).
Proof.
  apply (publishSelfSpawn_stores_the_record 1 0%nat
           (mkSubmit None (Some (mkTxStateOut (Some (mkTxId (Some [1; 2]))) 1))) 77 None
           managerReady (mkKeyPair "sm1qacct" "sk")
           {| state := Some (mkBalance (mkSnapshot 3 1000) (mkSnapshot 4 900));
              txs := {[ "aa"%string := mkTx (Some "aa"%string) (JNum 1) None ∅ ]};
              rewards := [] |}
           (mkBalance (mkSnapshot 3 1000) (mkSnapshot 4 900)));
    reflexivity.
Defined.

(** X20, at a concrete request: a spend with the note "rent". *)
Lemma publishSpendTx_stores_the_record_witness :
  let fullTx := mkSendRequest "sm1qdest" 10 1 (Some "rent"%string) in
  let response := mkSubmit None (Some (mkTxStateOut (Some (mkTxId (Some [1; 2]))) 1)) in
  let address := principalAddress 1 "sm1qacct" in
  let txId := toHexString (tx_id_bytes response) in
  let publish := publishSpendTx fullTx 0%nat response 77 None in
  exists t,
    result publish managerReady = Returned (mkPublishResult None (Some t))
    /\ id t = Some txId
    /\ status t = toTxState (from_option ts_state 0 (txstate response)) None
    /\ fields t !! "note"%string
       = match send_note fullTx with
         | Some n => if String.eqb n "" then None else Some (VStr n)
         | None => None
         end
    /\ storedTx address txId (exec publish managerReady)
       = Some (mergeTx (storedTx address txId managerReady) t).
Proof.
  apply (publishSpendTx_stores_the_record
           (mkSendRequest "sm1qdest" 10 1 (Some "rent"%string)) 0%nat
           (mkSubmit None (Some (mkTxStateOut (Some (mkTxId (Some [1; 2]))) 1))) 77 None
           managerReady (mkKeyPair "sm1qacct" "sk")
           {| state := Some (mkBalance (mkSnapshot 3 1000) (mkSnapshot 4 900));
              txs := {[ "aa"%string := mkTx (Some "aa"%string) (JNum 1) None ∅ ]};
              rewards := [] |}
           (mkBalance (mkSnapshot 3 1000) (mkSnapshot 4 900)) []);
    reflexivity.
Defined.

(** X21, at a service that fails every query. *)
Lemma retrieveAccountData_ends_witness :
  let query := fun (s : unit) (_ : Bech32Address) =>
                 (mkAccountDataReply [] (Some (ServiceError "unavailable")), s) in
  let handler := fun (d : Account__Output) (w : list Account__Output) => w ++ [d] in
  exists s' k w',
    retrieveAccountData (counting query) 6 "sm1qacct" handler 0 (tt, 0%nat) []
    = Some ((s', k), w')
    /\ (1 <= k <= 6)%nat
    /\ (w' = [] \/ exists d, w' = handler d []).
Proof.
  exact (retrieveAccountData_ends
           (fun (s : unit) (_ : Bech32Address) =>
              (mkAccountDataReply [] (Some (ServiceError "unavailable")), s))
           "sm1qacct" (fun d w => w ++ [d]) tt [] 6 (le_n 6)).
Defined.

(** X22, at a concrete ledger: 250 records, the page at offset 100 failing
    twice and the one at offset 200 five times. *)
Lemma walk_delivers_the_ledger_witness :
  let failure : MeshReply nat := mkMeshReply [] 0 (Some (ServiceError "unavailable")) in
  let failuresLeft : gmap Z nat := {[ 100 := 2%nat; 200 := 5%nat ]} in
  exists st',
    retrieveHistoricTxData (ledgerService (seq 0 250) GRPC_QUERY_BATCH_SIZE failure)
      (6 * (length (seq 0 250) + 1)) "sm1qacct" 0 deliver 0 failuresLeft []
    = Some (st', [] ++ seq 0 250).
Proof.
  apply (walk_delivers_the_ledger (seq 0 250)
           (mkMeshReply [] 0 (Some (ServiceError "unavailable"))) "sm1qacct").
  - reflexivity.
  - eexists. reflexivity.
  - apply map_Forall_insert_2; [lia|]. apply map_Forall_insert_2; [lia|].
    apply map_Forall_empty.
  - apply le_n.
Defined.

(** X23, at a service that fails six times in a row: the sixth failed answer
    is what the helper gives back. *)
Lemma getAccountDataQuery_retries_witness :
  getAccountDataQuery scripted "sm1qacct" 0 0 5
    (replicate 5 failedRewards ++ failedRewards :: [lastRewardsPage], [])
  = (failedRewards,
     ([lastRewardsPage],
      [] ++ replicate (S (length (replicate 5 failedRewards)))
              (0 + 0 * GRPC_QUERY_BATCH_SIZE))).
Proof.
  apply (getAccountDataQuery_retries "sm1qacct" 0 0 (replicate 5 failedRewards)
           [lastRewardsPage] failedRewards []).
  - repeat (constructor; [eexists; reflexivity|]). constructor.
  - apply le_n.
  - left. reflexivity.
Defined.

(** X24, at two concrete pages: the [null] and the incomplete entry of the
    first page come back, the [null] of the last page does not. *)
Lemma retrieveRewards_filters_the_last_page_only_witness :
  retrieveRewards scripted 2 "sm1qacct" 0 ([rewardsPage] ++ [lastRewardsPage], [])
  = Some (concat (rr_data <$> [rewardsPage])
            ++ filter (fun item => validRewardItem item = true) (rr_data lastRewardsPage),
          ([], [] ++ pageOffsets GRPC_QUERY_BATCH_SIZE 0 (S (length [rewardsPage])))).
Proof.
  apply (retrieveRewards_filters_the_last_page_only "sm1qacct" [rewardsPage]
           lastRewardsPage 0 [] 2).
  - repeat constructor.
  - reflexivity.
  - discriminate.
  - apply le_n.
Defined.

(** X25, at a service that always reports 250 rewards. *)
Lemma retrieveRewards_never_returns_witness :
  retrieveRewards
    (fun (s : unit) (_ : Bech32Address) (_ : Z) => (mkRewardsReply [] 250 None, s))
    1000 "sm1qacct" 0 tt
  = None.
Proof.
  exact (retrieveRewards_never_returns
           (fun (s : unit) (_ : Bech32Address) (_ : Z) => (mkRewardsReply [] 250 None, s))
           "sm1qacct" (fun _ _ _ => eq_refl) 1000%nat 0 tt).
Defined.

(** X26, at a store with one reward of layer 7 and two pages to fetch. *)
Lemma retrieveNewRewards_parses_every_page_witness :
  let a := {| state := None; txs := ∅; rewards := [mkReward 7 50 40 "sm1qacct"] |} in
  retrieveNewRewards scripted 2 "sm1qacct" managerRewarded
    ([rewardsPage] ++ [lastRewardsPage], [])
  = Some (rewards a
            ++ omap (fun reward => reward ≫= parseReward)
                 (concat (rr_data <$> [rewardsPage] ++ [lastRewardsPage])),
          ([], [] ++ pageOffsets GRPC_QUERY_BATCH_SIZE (lastSyncedRewardsLayer a)
                       (S (length [rewardsPage])))).
Proof.
  apply (retrieveNewRewards_parses_every_page "sm1qacct" managerRewarded
           {| state := None; txs := ∅; rewards := [mkReward 7 50 40 "sm1qacct"] |}
           [rewardsPage] lastRewardsPage [] 2).
  - reflexivity.
  - repeat constructor.
  - reflexivity.
  - discriminate.
  - apply le_n.
Defined.

End MoreClosedExamples.

Section RestoredStore.
Local Existing Instance restoredImports.

(** X14, at an installation whose stores load with a transaction on file. *)
Lemma debounce_timer_after_removal_throws_witness :
  let keypair := mkKeyPair "sm1qacct" "sk" in
  let m := exec (setAccounts []) (exec (addAccount keypair) emptyManager) in
  debounced m = Some (accountAddress keypair)
  /\ fire DebounceTimerFired m = (Thrown TypeError, set_debounced None m)
  /\ txStateStream (exec (fire DebounceTimerFired) m) = txStateStream emptyManager.
Proof.
  apply (debounce_timer_after_removal_throws (mkKeyPair "sm1qacct" "sk") emptyManager).
  intros Hempty.
  apply (f_equal (fun ledger => ledger !! "aa"%string)) in Hempty.
  vm_compute in Hempty. discriminate Hempty.
Defined.

End RestoredStore.
